(** * Patient portal: identity resolution, patient-scoped filtering,
      booking-form validation and the load cycle

    A shallow embedding of the pure and state-updating parts of
    [PatientDashboard] (identity helpers, the single-pass filter, the data
    loader) and of [Appointments.jsx] (validation predicates, field and form
    validators, the submit gate, the two loaders), followed by the
    properties established about them.

    JavaScript values are embedded as a small universe of JSON-shaped
    values.  Strings are sequences of UTF-16 code units, numbers are IEEE
    binary64 floats (the kernel's primitive floats), and the few functions
    of the runtime whose behaviour is fixed by the host rather than by this
    repository (the clock, the local calendar, [Date] construction, numeric
    parsing and printing) are variables of the section that holds the
    embedding. *)

From Stdlib Require Import String Ascii List ZArith NArith Arith Bool Lia.
From Stdlib Require Import Floats Uint63 DecimalString.
From Equations Require Import Equations.
From Equations.Prop Require Import Logic.
Import ListNotations.

Set Implicit Arguments.
Open Scope string_scope.
Open Scope list_scope.
Set Warnings "-register-all".

(** ** JavaScript values *)

Module Js.

(** A string is its sequence of UTF-16 code units. *)
Definition JsString : Type := list N.

(** The code units of an ASCII literal of the source text. *)
Definition lit (s : string) : JsString :=
  map N_of_ascii (list_ascii_of_string s).

Fixpoint str_eqb (a b : JsString) : bool :=
  match a, b with
  | [], [] => true
  | x :: a', y :: b' => N.eqb x y && str_eqb a' b'
  | _, _ => false
  end.

(** JSON-shaped values, as the services deliver them and as the tests
    build them: the two nullish values, the primitives, arrays and plain
    data objects.  An object is its property table; a lookup reads the
    first entry of a key, so a table that lists each key once is the object
    literal with those properties.  Objects inherit [toString] and
    [valueOf] from [Object.prototype]: a table that redefines one of them
    is not a value of this universe. *)
Inductive JsVal : Type :=
| JUndefined
| JNull
| JBool (b : bool)
| JNum (x : float)
| JStr (s : JsString)
| JArr (items : list JsVal)
| JObj (props : list (string * JsVal)).

Definition JsObject : Type := list (string * JsVal).

(** [o.k] on a property table: the property's value, [undefined] when the
    object has no such property. *)
Fixpoint field (o : JsObject) (k : string) : JsVal :=
  match o with
  | [] => JUndefined
  | (k', v) :: rest => if String.eqb k' k then v else field rest k
  end.

(** [v?.k] for the property names read by this code ([_id], [id]), none of
    which a primitive or an array carries: nullish receivers short-circuit
    to [undefined], objects are looked up, anything else has no such
    property.  It is also [v.k] whenever [v] is known not to be nullish. *)
Definition optField (v : JsVal) (k : string) : JsVal :=
  match v with
  | JObj props => field props k
  | _ => JUndefined
  end.

Definition nullish (v : JsVal) : bool :=
  match v with
  | JUndefined | JNull => true
  | _ => false
  end.

(** [a ?? b] *)
Definition coalesce (a b : JsVal) : JsVal := if nullish a then b else a.

(** [ToBoolean]: the falsy values are [undefined], [null], [false], [0],
    [-0], [NaN] and the empty string. *)
Definition truthy (v : JsVal) : bool :=
  match v with
  | JUndefined | JNull => false
  | JBool b => b
  | JNum x => negb (PrimFloat.is_zero x || PrimFloat.is_nan x)
  | JStr s => match s with [] => false | _ :: _ => true end
  | JArr _ | JObj _ => true
  end.

Definition str_truthy (s : JsString) : bool :=
  match s with [] => false | _ :: _ => true end.

(** [s === v] where the left operand is a string: strict equality holds
    only against a string with the same code units. *)
Definition strictEqStr (s : JsString) (v : JsVal) : bool :=
  match v with
  | JStr t => str_eqb s t
  | _ => false
  end.

(** [s.split(sep)] for a separator of one code unit. *)
Fixpoint splitOn (sep : N) (s : JsString) : list JsString :=
  match s with
  | [] => [[]]
  | c :: rest =>
      if N.eqb c sep then [] :: splitOn sep rest
      else
        match splitOn sep rest with
        | [] => [[c]]
        | w :: ws => (c :: w) :: ws
        end
  end.

(** The code units [String.prototype.trim] strips: WhiteSpace and
    LineTerminator of the language grammar. *)
Definition isWhiteSpace (c : N) : bool :=
  match c with
  | 9 | 10 | 11 | 12 | 13 | 32 | 160 | 5760
  | 8232 | 8233 | 8239 | 8287 | 12288 | 65279 => true
  | _ => (8192 <=? c) && (c <=? 8202)
  end%N.

Fixpoint trimStart (s : JsString) : JsString :=
  match s with
  | [] => []
  | c :: rest => if isWhiteSpace c then trimStart rest else s
  end.

(** [s.trim()] *)
Definition trim (s : JsString) : JsString :=
  rev (trimStart (rev (trimStart s))).

(** The number whose value is the natural number [n] (exact below
    [2^53]). *)
Definition natToNumber (n : nat) : float :=
  PrimFloat.of_uint63 (Uint63.of_Z (Z.of_nat n)).

(** The code unit of the decimal digit [d]. *)
Definition digit (d : nat) : N := N.of_nat (48 + d).

(** The time [h:m] as an [<input type="time">] reports it, two digits
    each. *)
Definition hhmm (h m : nat) : JsString :=
  [digit (h / 10); digit (h mod 10); 58%N; digit (m / 10); digit (m mod 10)].

End Js.
Export Js.

Declare Scope js_scope.
Delimit Scope js_scope with js.
Infix "??" := coalesce (at level 45, left associativity) : js_scope.
Open Scope js_scope.

(** ** Settled promises *)

(** An [Error] object as the services reject with; the views show its
    [message]. *)
Record JsError : Type := mkError { message : JsString }.

Inductive Settled (A : Type) : Type :=
| Fulfilled (v : A)
| Rejected (e : JsError).
Arguments Fulfilled {A} v.
Arguments Rejected {A} e.

(** [p.catch(() => fallback)] *)
Definition catchWith {A : Type} (p : Settled A) (fallback : A) : Settled A :=
  match p with
  | Fulfilled v => Fulfilled v
  | Rejected _ => Fulfilled fallback
  end.

(** [Promise.all] of four promises: fulfilled with all four values, or
    rejected with the reason of a rejected one (here the leftmost; in this
    code only the first of the four can reject). *)
Definition promiseAll4 {A B C D : Type}
    (a : Settled A) (b : Settled B) (c : Settled C) (d : Settled D)
    : Settled (A * B * C * D) :=
  match a, b, c, d with
  | Fulfilled x, Fulfilled y, Fulfilled z, Fulfilled w => Fulfilled (x, y, z, w)
  | Rejected e, _, _, _ => Rejected e
  | _, Rejected e, _, _ => Rejected e
  | _, _, Rejected e, _ => Rejected e
  | _, _, _, Rejected e => Rejected e
  end.

(** ** State of the two views *)

(** The booking form's [formData]. *)
Module FormData.
Record t : Type := mk {
  doctor : JsString;
  appointmentDate : JsString;
  appointmentTime : JsString;
  reason : JsString;
  symptoms : JsString
}.
End FormData.

(** The object [validateBookingForm] returns, also the [errors] state. *)
Module FieldErrors.
Record t : Type := mk {
  doctor : JsString;
  appointmentDate : JsString;
  appointmentTime : JsString;
  reason : JsString
}.
End FieldErrors.

(** The state cells of the [Appointments] page that the loaders and the
    submit handler write before the handler first awaits. *)
Module Page.
Record t : Type := mk {
  appointments : list JsObject;
  doctors : list JsVal;
  loading : bool;
  formData : FormData.t;
  errors : FieldErrors.t;
  submitError : JsString;
  submitting : bool
}.
End Page.

(** The object passed to [setStats]: the spread of [statsResponse?.stats]
    followed by the two counts computed from the patient's own records. *)
Record DashboardStats : Type := mkStats {
  serviceStats : JsObject;
  myAppointments : nat;
  upcomingAppointments : nat
}.

(** The state cells of [usePatientDashboardData]. *)
Module Dash.
Record t : Type := mk {
  stats : option DashboardStats;
  appointments : list JsObject;
  analyses : list JsVal;
  trends : list JsVal;
  loading : bool;
  error : option JsError
}.
End Dash.

(** What [PatientDashboard] renders. *)
Inductive DashboardView : Type :=
| ViewLoading
| ViewError (shown : JsString)
| ViewDashboard.

(** ** The booking view beyond its page state *)

(** The four field names [handleFieldChange] is called with. *)
Inductive FieldName : Type :=
| FDoctor
| FAppointmentDate
| FAppointmentTime
| FReason.

(** The property name a field is stored under. *)
Definition fieldKey (name : FieldName) : JsString :=
  match name with
  | FDoctor => lit "doctor"
  | FAppointmentDate => lit "appointmentDate"
  | FAppointmentTime => lit "appointmentTime"
  | FReason => lit "reason"
  end.

(** [formData[name]] *)
Definition formField (name : FieldName) (data : FormData.t) : JsString :=
  match name with
  | FDoctor => FormData.doctor data
  | FAppointmentDate => FormData.appointmentDate data
  | FAppointmentTime => FormData.appointmentTime data
  | FReason => FormData.reason data
  end.

(** [{ ...prev, [name]: value }] on the form data *)
Definition setFormField (name : FieldName) (value : JsString)
    (prev : FormData.t) : FormData.t :=
  match name with
  | FDoctor =>
      FormData.mk value (FormData.appointmentDate prev)
        (FormData.appointmentTime prev) (FormData.reason prev)
        (FormData.symptoms prev)
  | FAppointmentDate =>
      FormData.mk (FormData.doctor prev) value
        (FormData.appointmentTime prev) (FormData.reason prev)
        (FormData.symptoms prev)
  | FAppointmentTime =>
      FormData.mk (FormData.doctor prev) (FormData.appointmentDate prev)
        value (FormData.reason prev) (FormData.symptoms prev)
  | FReason =>
      FormData.mk (FormData.doctor prev) (FormData.appointmentDate prev)
        (FormData.appointmentTime prev) value (FormData.symptoms prev)
  end.

(** [errors[name]] *)
Definition errorField (name : FieldName) (errs : FieldErrors.t) : JsString :=
  match name with
  | FDoctor => FieldErrors.doctor errs
  | FAppointmentDate => FieldErrors.appointmentDate errs
  | FAppointmentTime => FieldErrors.appointmentTime errs
  | FReason => FieldErrors.reason errs
  end.

(** [{ ...prev, [name]: message }] on the errors *)
Definition setErrorField (name : FieldName) (msg : JsString)
    (prev : FieldErrors.t) : FieldErrors.t :=
  match name with
  | FDoctor =>
      FieldErrors.mk msg (FieldErrors.appointmentDate prev)
        (FieldErrors.appointmentTime prev) (FieldErrors.reason prev)
  | FAppointmentDate =>
      FieldErrors.mk (FieldErrors.doctor prev) msg
        (FieldErrors.appointmentTime prev) (FieldErrors.reason prev)
  | FAppointmentTime =>
      FieldErrors.mk (FieldErrors.doctor prev)
        (FieldErrors.appointmentDate prev) msg (FieldErrors.reason prev)
  | FReason =>
      FieldErrors.mk (FieldErrors.doctor prev)
        (FieldErrors.appointmentDate prev)
        (FieldErrors.appointmentTime prev) msg
  end.

Definition initialFormData : FormData.t := FormData.mk [] [] [] [] [].

Definition initialErrors : FieldErrors.t := FieldErrors.mk [] [] [] [].

Definition SUCCESS_MESSAGE : JsString := lit "Appointment booked successfully.".

(** How [appointmentService.create] settles: fulfilled, or rejected with an
    error whose [response?.data?.message] is absent or a string. *)
Inductive CreateOutcome : Type :=
| Created
| CreateFailed (serverMessage : option JsString).

(** The whole state of the [Appointments] view: the page state, the two
    remaining state cells, the ref that holds the handle of the hide
    timer, and the handles of the timeouts of this view that the window
    still has pending. *)
Module Booking.
Record t : Type := mk {
  page : Page.t;
  showForm : bool;
  successMessage : JsString;
  timeoutRef : option nat;
  pendingTimeouts : list nat
}.
End Booking.

(** [clearTimeout(id)]: the timeout is no longer pending. *)
Definition clearTimeout (id : nat) (pending : list nat) : list nat :=
  remove Nat.eq_dec id pending.

(** The continuation of [handleSubmit] after [await
    appointmentService.create(formData)], with its [finally]; [handle] is
    what [setTimeout] returns if it is called. *)
Definition createSettled (outcome : CreateOutcome) (handle : nat)
    (v : Booking.t) : Booking.t :=
  let p := Booking.page v in
  match outcome with
  | Created =>
      let cleared :=
        match Booking.timeoutRef v with
        | Some old => clearTimeout old (Booking.pendingTimeouts v)
        | None => Booking.pendingTimeouts v
        end in
      Booking.mk
        (Page.mk (Page.appointments p) (Page.doctors p) (Page.loading p)
           initialFormData initialErrors (Page.submitError p) false)
        false SUCCESS_MESSAGE (Some handle) (handle :: cleared)
  | CreateFailed serverMessage =>
      let shown :=
        match serverMessage with
        | Some m => if str_truthy m then m else lit "Failed to create appointment"
        | None => lit "Failed to create appointment"
        end in
      Booking.mk
        (Page.mk (Page.appointments p) (Page.doctors p) (Page.loading p)
           (Page.formData p) (Page.errors p) shown false)
        (Booking.showForm v) (Booking.successMessage v)
        (Booking.timeoutRef v) (Booking.pendingTimeouts v)
  end.

(** The callback of the hide timer, run by the window when the timeout
    [id] is still pending. *)
Definition timeoutFires (id : nat) (v : Booking.t) : Booking.t :=
  if in_dec Nat.eq_dec id (Booking.pendingTimeouts v)
  then
    Booking.mk (Booking.page v) (Booking.showForm v) []
      (Booking.timeoutRef v) (clearTimeout id (Booking.pendingTimeouts v))
  else v.

(** The cleanup of the effect that owns the hide timer. *)
Definition unmount (v : Booking.t) : Booking.t :=
  match Booking.timeoutRef v with
  | Some id =>
      Booking.mk (Booking.page v) (Booking.showForm v)
        (Booking.successMessage v) (Booking.timeoutRef v)
        (clearTimeout id (Booking.pendingTimeouts v))
  | None => v
  end.

(** The view as [useState] and [useRef] initialise it. *)
Definition mountedView : Booking.t :=
  Booking.mk
    (Page.mk [] [] true initialFormData initialErrors [] false)
    false [] None [].

(** ** A sample host

    The embedding below takes five functions of the runtime as parameters.
    This is one choice for them, used to evaluate the embedding on concrete
    inputs: a device on UTC whose clock reads 2025-02-10T10:30:00Z.  It
    prints a number by the decimal digits of its integer part (exact for
    the integers of magnitude below [2^53]), reads strings of decimal
    digits as numbers, and constructs dates from [YYYY-MM-DD] strings (UTC
    midnight, as the language fixes for the date-only form) and from
    [null]; every other argument of [new Date] is given the Invalid
    Date. *)

Module SampleHost.

Definition numberToString (x : float) : JsString :=
  match Prim2SF x with
  | S754_nan => lit "NaN"
  | S754_zero _ => lit "0"
  | S754_infinity false => lit "Infinity"
  | S754_infinity true => lit "-Infinity"
  | S754_finite s m e =>
      let magnitude :=
        if (0 <=? e)%Z then (Z.pos m * 2 ^ e)%Z else (Z.pos m / 2 ^ (- e))%Z in
      (if s then lit "-" else []) ++
      lit (NilZero.string_of_uint (N.to_uint (Z.to_N magnitude)))
  end.

Definition digitValue (c : N) : option nat :=
  if ((48 <=? c) && (c <=? 57))%N then Some (N.to_nat (c - 48)) else None.

(** The value of a string of decimal digits, read left to right. *)
Fixpoint decimalValue (acc : nat) (s : JsString) : option nat :=
  match s with
  | [] => Some acc
  | c :: rest =>
      match digitValue c with
      | Some d => decimalValue (10 * acc + d) rest
      | None => None
      end
  end.

Definition stringToNumber (s : JsString) : float :=
  match s with
  | [] => 0%float
  | _ :: _ =>
      match decimalValue 0 s with
      | Some n => natToNumber n
      | None => nan
      end
  end.

Definition msPerDay : Z := 86400000.

Definition now : Z := 20129 * msPerDay + 37800000.

Definition startOfLocalDay (t : Z) : Z := (t - t mod msPerDay)%Z.

(** Days from 1970-01-01 to the given day of the proleptic Gregorian
    calendar. *)
Definition daysFromCivil (y m d : Z) : Z :=
  let y' := if (m <=? 2)%Z then (y - 1)%Z else y in
  let era := (y' / 400)%Z in
  let yoe := (y' - era * 400)%Z in
  let mp := if (2 <? m)%Z then (m - 3)%Z else (m + 9)%Z in
  let doy := ((153 * mp + 2) / 5 + d - 1)%Z in
  let doe := (yoe * 365 + yoe / 4 - yoe / 100 + doy)%Z in
  (era * 146097 + doe - 719468)%Z.

Definition dash : N := 45%N.

Definition parseIsoDate (s : JsString) : option Z :=
  match s with
  | [y1; y2; y3; y4; s1; m1; m2; s2; d1; d2] =>
      if (N.eqb s1 dash && N.eqb s2 dash)%bool then
        match decimalValue 0 [y1; y2; y3; y4],
              decimalValue 0 [m1; m2], decimalValue 0 [d1; d2] with
        | Some y, Some m, Some d =>
            if ((1 <=? m) && (m <=? 12) && (1 <=? d) && (d <=? 31))%nat
            then Some (daysFromCivil (Z.of_nat y) (Z.of_nat m) (Z.of_nat d)
                       * msPerDay)%Z
            else None
        | _, _, _ => None
        end
      else None
  | _ => None
  end.

Definition newDate (v : JsVal) : option Z :=
  match v with
  | JStr s => parseIsoDate s
  | JNull => Some 0%Z
  | _ => None
  end.

End SampleHost.

(** ** A host west of Greenwich

    The sample host moved five hours behind UTC, at 10:30 of the same
    morning on its own clock (2025-02-10T15:30:00Z).  Printing, numeric
    parsing and [new Date] are those of the sample host: the language
    reads a date-only string as UTC midnight on every device. *)

Module WestHost.

Definition utcOffset : Z := -18000000.

Definition now : Z := 20129 * SampleHost.msPerDay + 55800000.

(** The instant at which the local day of [t] began. *)
Definition startOfLocalDay (t : Z) : Z :=
  (t - (t + utcOffset) mod SampleHost.msPerDay)%Z.





End WestHost.

(** ** Sample data *)

Module SampleData.

(** A record as the appointments service returns it. *)
Definition record (id owner status : string) : JsObject :=
  [ ("_id", JStr (lit id));
    ("patient", JStr (lit owner));
    ("appointmentDate", JStr (lit "2025-02-10"));
    ("status", JStr (lit status)) ].

(** Four records owned by [p1, p2, p1, p1], all dated today. *)
Definition fourRecords : list JsObject :=
  [ record "1" "p1" "confirmed";
    record "2" "p2" "pending";
    record "3" "p1" "cancelled";
    record "4" "p1" "pending" ].

(** An owner reference that is an object without [_id], next to a
    [patientId]. *)
Definition ownerWithoutId : JsObject :=
  [ ("patient", JObj []); ("patientId", JStr (lit "p3")) ].

Definition networkError : JsError := mkError (lit "Network Error").

(** The dashboard's state cells at mount. *)
Definition dashAtMount : Dash.t := Dash.mk None [] [] [] true None.

(** A form with a doctor and a reason, and neither date nor time. *)
Definition formWithoutDateAndTime : FormData.t :=
  FormData.mk (lit "d1") [] [] (lit "Annual checkup and blood work") [].

Definition pageWithForm : Page.t :=
  Page.mk [] [] false formWithoutDateAndTime
    (FieldErrors.mk [] [] [] []) [] false.

End SampleData.

(** ** Further sample data *)

Module MoreSampleData.

(** Two records of one patient that differ in their user-shaped fields. *)
Definition ownedThroughPatient : JsObject :=
  [ ("patient", JStr (lit "p1")); ("user", JStr (lit "u1")) ].

Definition ownedThroughPatientToo : JsObject :=
  [ ("patient", JStr (lit "p1")); ("userId", JStr (lit "u9")) ].

(** The user of the dashboard's test: both ids set, and equal. *)
Definition userWithEqualIds : JsVal :=
  JObj [ ("id", JStr (lit "patient-1")); ("_id", JStr (lit "patient-1")) ].

(** A view whose form is filled in and valid in every rule. *)
Definition filledForm : FormData.t :=
  FormData.mk (lit "d1") (lit "2025-02-10") (lit "10:00")
    (lit "Annual checkup and blood work") [].

Definition viewWithFilledForm : Booking.t :=
  Booking.mk
    (Page.mk [] [] false filledForm (FieldErrors.mk [] [] [] []) [] false)
    true [] None [].

End MoreSampleData.

(** ** The embedding *)

Section Host.

(** *** What the host runtime supplies *)

(** [Number.prototype.toString] in radix 10 (the shortest round-tripping
    decimal form). *)
Variable numberToString : float -> JsString.

(** [Number(s)] on a string (the [StringToNumber] operation). *)
Variable stringToNumber : JsString -> float.

(** The clock reading of [new Date()], in milliseconds since the epoch. *)
Variable now : Z.

(** [setHours(0, 0, 0, 0)] on a valid time value: the start of its day in
    the device's local time zone. *)
Variable startOfLocalDay : Z -> Z.

(** The time value of [new Date(v)]; [None] is the Invalid Date.  Parsing
    of strings is partly implementation defined, so it stays with the
    host. *)
Variable newDate : JsVal -> option Z.

(** *** Coercion to string *)

Definition comma : N := 44%N.

(** [String(v)] *)
Fixpoint toString (v : JsVal) : JsString :=
  match v with
  | JUndefined => lit "undefined"
  | JNull => lit "null"
  | JBool true => lit "true"
  | JBool false => lit "false"
  | JNum x => numberToString x
  | JStr s => s
  | JArr items =>
      (fix join (l : list JsVal) : JsString :=
         match l with
         | [] => []
         | x :: rest =>
             match x with
             | JUndefined | JNull => []
             | _ => toString x
             end ++
             match rest with
             | [] => []
             | _ :: _ => comma :: join rest
             end
         end) items
  | JObj _ => lit "[object Object]"
  end.

(** *** Dates *)

(** A [Date] object is its time value; [None] is the Invalid Date. *)
Definition Date : Type := option Z.

(** [new Date()] followed by [setHours(0, 0, 0, 0)] *)
Definition todayAtMidnight : Date := Some (startOfLocalDay now).

(** [d.setHours(0, 0, 0, 0)]: an Invalid Date stays invalid. *)
Definition setHoursZero (d : Date) : Date := option_map startOfLocalDay d.

(** [a >= b] on two dates: both are converted to their time values, and a
    comparison with [NaN] is false. *)
Definition date_ge (a b : Date) : bool :=
  match a, b with
  | Some x, Some y => (y <=? x)%Z
  | _, _ => false
  end.

(** *** PatientDashboard: identity *)

Definition Appointment : Type := JsObject.

(** [user ? String(user._id ?? user.id ?? '') : ''] *)
Definition getCurrentPatientId (user : JsVal) : JsString :=
  if truthy user
  then toString (optField user "_id" ?? optField user "id" ?? JStr [])
  else [].

Definition getPatientIdFromAppointment (appointment : Appointment) : JsString :=
  let id :=
    optField (field appointment "patient") "_id" ??
    field appointment "patient" ??
    field appointment "patientId" ??
    optField (field appointment "user") "_id" ??
    field appointment "user" ??
    field appointment "userId" ??
    JStr [] in
  toString id.

(** *** PatientDashboard: the single pass *)

Record FilterResult : Type := mkFilterResult {
  patientAppointments : list Appointment;
  upcomingCount : nat
}.

(** The loop's variables: the index [i], the output array and the
    counter. *)
Record LoopState : Type := mkLoop {
  idx : nat;
  out : list Appointment;
  count : nat
}.

(** The condition of the [if] that guards [upcomingCount++]. *)
Definition countsAsUpcoming (todayStart : Date) (appointment : Appointment) : bool :=
  date_ge (newDate (field appointment "appointmentDate")) todayStart &&
  (strictEqStr (lit "confirmed") (field appointment "status") ||
   strictEqStr (lit "pending") (field appointment "status")).

(** One iteration of the loop body on the record read at index [i]. *)
Definition loopBody (patientId : JsVal) (todayStart : Date)
    (appointment : Appointment) (st : LoopState) : LoopState :=
  if negb (strictEqStr (getPatientIdFromAppointment appointment) patientId)
  then mkLoop (S (idx st)) (out st) (count st)
  else
    mkLoop (S (idx st)) (out st ++ [appointment])
      (if countsAsUpcoming todayStart appointment
       then S (count st) else count st).

(** [for (let i = ...; i < appointments.length; i++)]: the read
    [appointments[i]] succeeds exactly while [i < appointments.length]. *)
Equations? forLoop (appointments : list Appointment) (patientId : JsVal)
    (todayStart : Date) (st : LoopState) : LoopState
    by wf (length appointments - idx st) lt :=
  forLoop appointments patientId todayStart st
    with inspect (nth_error appointments (idx st)) := {
    | exist _ None Hexit => st
    | exist _ (Some appointment) Hread =>
        forLoop appointments patientId todayStart
          (loopBody patientId todayStart appointment st) }.
Proof.
  assert (idx st < length appointments)
    by (apply nth_error_Some; congruence).
  unfold loopBody.
  destruct (negb _); simpl; lia.
Qed.

Definition filterAppointmentsForPatientAndCountUpcoming
    (appointments : list Appointment) (patientId : JsVal) : FilterResult :=
  if negb (truthy patientId) then mkFilterResult [] 0
  else
    let todayStart := todayAtMidnight in
    let final := forLoop appointments patientId todayStart (mkLoop 0 [] 0) in
    mkFilterResult (out final) (count final).

(** *** PatientDashboard: the load cycle *)

(** The four responses as the services settle them; a payload is [None]
    when the response or its field is nullish. *)
Record DashboardFetches : Type := mkFetches {
  getStats : Settled (option JsObject);
  getAllAppointments : Settled (option (list Appointment));
  getAllAnalyses : Settled (option (list JsVal));
  getTrends : Settled (option (list JsVal))
}.

Definition orEmpty {A : Type} (payload : option (list A)) : list A :=
  match payload with
  | Some l => l
  | None => []
  end.

(** [fetchDashboardData(currentPatientId, isCancelled)], run from the state
    [st] once the awaited [Promise.all] has settled.  Nothing awaits after
    that point, so the three reads of [isCancelled()] see one value. *)
Definition fetchDashboardData (currentPatientId : JsString) (cancelled : bool)
    (net : DashboardFetches) (st : Dash.t) : Dash.t :=
  match
    promiseAll4
      (getStats net)
      (catchWith (getAllAppointments net) (Some []))
      (catchWith (getAllAnalyses net) (Some []))
      (catchWith (getTrends net) (Some []))
  with
  | Fulfilled (statsResponse, appointmentsResponse, analysesResponse, trendsResponse) =>
      if cancelled then st
      else
        let allAppointments := orEmpty appointmentsResponse in
        let r :=
          filterAppointmentsForPatientAndCountUpcoming
            allAppointments (JStr currentPatientId) in
        Dash.mk
          (Some (mkStats
                   (match statsResponse with Some o => o | None => [] end)
                   (length (patientAppointments r))
                   (upcomingCount r)))
          (patientAppointments r)
          (orEmpty analysesResponse)
          (orEmpty trendsResponse)
          false
          (Dash.error st)
  | Rejected err =>
      if cancelled then st
      else
        Dash.mk (Dash.stats st) (Dash.appointments st) (Dash.analyses st)
          (Dash.trends st) false (Some err)
  end.

(** [const userId = user?.id ?? user?._id ?? null] *)
Definition hookUserId (user : JsVal) : JsVal :=
  optField user "id" ?? optField user "_id" ?? JNull.

(** [const currentPatientId = userId ? String(userId) : ''] *)
Definition hookCurrentPatientId (user : JsVal) : JsString :=
  let userId := hookUserId user in
  if truthy userId then toString userId else [].

(** The effect of [usePatientDashboardData(user)] together with the load it
    starts, up to the settlement of that load. *)
Definition usePatientDashboardData (user : JsVal) (cancelled : bool)
    (net : DashboardFetches) (st : Dash.t) : Dash.t :=
  let currentPatientId := hookCurrentPatientId user in
  if negb (str_truthy currentPatientId)
  then
    Dash.mk (Dash.stats st) (Dash.appointments st) (Dash.analyses st)
      (Dash.trends st) false None
  else
    fetchDashboardData currentPatientId cancelled net
      (Dash.mk (Dash.stats st) (Dash.appointments st) (Dash.analyses st)
         (Dash.trends st) true None).

(** The three-way render of [PatientDashboard]. *)
Definition render (st : Dash.t) : DashboardView :=
  if Dash.loading st then ViewLoading
  else
    match Dash.error st with
    | Some err => ViewError (message err)
    | None => ViewDashboard
    end.

(** *** Appointments.jsx: predicates *)

Definition BUSINESS_HOURS_start : float := 9.
Definition BUSINESS_HOURS_end : float := 17.
Definition REASON_MIN_LENGTH : nat := 10.

Definition isDateInFuture (dateStr : JsString) : bool :=
  if negb (str_truthy dateStr) then false
  else
    let today := todayAtMidnight in
    let chosen := setHoursZero (newDate (JStr dateStr)) in
    date_ge chosen today.

Definition colon : N := 58%N.

Definition isBusinessHours (timeStr : JsString) : bool :=
  if negb (str_truthy timeStr) then false
  else
    let parts := map stringToNumber (splitOn colon timeStr) in
    let h := match nth_error parts 0 with Some x => x | None => nan end in
    let m := nth_error parts 1 in
    let minutes := (h * 60 + match m with Some x => x | None => 0 end)%float in
    let startMinutes := (BUSINESS_HOURS_start * 60)%float in
    let endMinutes := (BUSINESS_HOURS_end * 60)%float in
    (startMinutes <=? minutes)%float && (minutes <=? endMinutes)%float.

(** *** Appointments.jsx: validators *)

(** The two template literals are written out with their constants
    interpolated. *)
Definition getFieldValidationError (name value : JsString) : JsString :=
  if str_eqb name (lit "doctor") then
    if str_truthy value then [] else lit "Doctor selection is required"
  else if str_eqb name (lit "appointmentDate") then
    if str_truthy value
    then if isDateInFuture value then [] else lit "Date must be in the future"
    else []
  else if str_eqb name (lit "appointmentTime") then
    if str_truthy value
    then
      if isBusinessHours value then []
      else lit "Time must be during business hours (9 AM - 17 PM)"
    else []
  else if str_eqb name (lit "reason") then
    if str_truthy value
    then
      if (REASON_MIN_LENGTH <=? length (trim value))%nat then []
      else lit "Reason must be at least 10 characters"
    else lit "Reason must be at least 10 characters"
  else [].

Definition validateBookingForm (data : FormData.t) : FieldErrors.t :=
  FieldErrors.mk
    (getFieldValidationError (lit "doctor") (FormData.doctor data))
    (getFieldValidationError (lit "appointmentDate")
       (FormData.appointmentDate data))
    (getFieldValidationError (lit "appointmentTime")
       (FormData.appointmentTime data))
    (getFieldValidationError (lit "reason") (FormData.reason data)).

(** The [useMemo] value [isFormValid]. *)
Definition isFormValid (formData : FormData.t) : bool :=
  let fieldErrors := validateBookingForm formData in
  negb (str_truthy (FieldErrors.doctor fieldErrors)) &&
  negb (str_truthy (FieldErrors.appointmentDate fieldErrors)) &&
  negb (str_truthy (FieldErrors.appointmentTime fieldErrors)) &&
  negb (str_truthy (FieldErrors.reason fieldErrors)).

(** [disabled={!isFormValid || submitting}] on the submit button. *)
Definition submitDisabled (st : Page.t) : bool :=
  negb (isFormValid (Page.formData st)) || Page.submitting st.

(** [handleSubmit] up to its first [await]: the new state, and the payload
    handed to [appointmentService.create] when validation lets the
    submission through. *)
Definition handleSubmit (st : Page.t) : Page.t * option FormData.t :=
  let fieldErrors := validateBookingForm (Page.formData st) in
  if str_truthy (FieldErrors.doctor fieldErrors) ||
     str_truthy (FieldErrors.appointmentDate fieldErrors) ||
     str_truthy (FieldErrors.appointmentTime fieldErrors) ||
     str_truthy (FieldErrors.reason fieldErrors)
  then
    (Page.mk (Page.appointments st) (Page.doctors st) (Page.loading st)
       (Page.formData st) fieldErrors (Page.submitError st)
       (Page.submitting st),
     None)
  else
    (Page.mk (Page.appointments st) (Page.doctors st) (Page.loading st)
       (Page.formData st) fieldErrors [] true,
     Some (Page.formData st)).

(** *** Appointments.jsx: loaders *)

(** [loadAppointments(isCancelled)] once [appointmentService.getAll()] has
    settled; a response that cannot be destructured throws inside the
    [try] and takes the rejected path. *)
Definition loadAppointments (cancelled : bool)
    (getAll : Settled (option (list Appointment))) (st : Page.t) : Page.t :=
  let data :=
    match getAll with
    | Fulfilled payload => orEmpty payload
    | Rejected _ => []
    end in
  if cancelled then st
  else
    Page.mk data (Page.doctors st) false (Page.formData st) (Page.errors st)
      (Page.submitError st) (Page.submitting st).

(** [loadDoctors(isCancelled)] once [userService.getAll(...)] has settled. *)
Definition loadDoctors (cancelled : bool)
    (getAll : Settled (option (list JsVal))) (st : Page.t) : Page.t :=
  match getAll with
  | Fulfilled users =>
      if cancelled then st
      else
        Page.mk (Page.appointments st) (orEmpty users) (Page.loading st)
          (Page.formData st) (Page.errors st) (Page.submitError st)
          (Page.submitting st)
  | Rejected _ => st
  end.

(** *** The specification's reading of the filter *)

(** The ownership test of the loop: the owner id that
    [getPatientIdFromAppointment] resolves equals [patientId]. *)
Definition ownedBy (patientId : JsString) (appointment : Appointment) : bool :=
  str_eqb (getPatientIdFromAppointment appointment) patientId.

(** The date test as a comparison of days: the instant that
    [new Date(appointmentDate)] denotes and the present moment, both cut
    back to local midnight, are compared; a record without a valid date is
    never on or after today. *)
Definition onOrAfterTodayDateOnly (appointment : Appointment) : bool :=
  match newDate (field appointment "appointmentDate") with
  | Some t => (startOfLocalDay now <=? startOfLocalDay t)%Z
  | None => false
  end.

Definition statusPendingOrConfirmed (appointment : Appointment) : bool :=
  strictEqStr (lit "pending") (field appointment "status") ||
  strictEqStr (lit "confirmed") (field appointment "status").

(** "Upcoming", with the date test above. *)
Definition upcomingBySpec (appointment : Appointment) : bool :=
  onOrAfterTodayDateOnly appointment && statusPendingOrConfirmed appointment.

(** What the calendar of the device is assumed to satisfy: cutting a time
    back to the start of its local day never moves it forward, keeps the
    order of times, and leaves a start of day where it is. *)
Record LocalCalendar : Prop := mkCalendar {
  startOfLocalDay_le : forall t, (startOfLocalDay t <= t)%Z;
  startOfLocalDay_mono :
    forall s t, (s <= t)%Z -> (startOfLocalDay s <= startOfLocalDay t)%Z;
  startOfLocalDay_idem :
    forall t, startOfLocalDay (startOfLocalDay t) = startOfLocalDay t
}.

(** *** The specification's reading of owner resolution *)

Definition isPrimitive (v : JsVal) : bool :=
  match v with
  | JArr _ | JObj _ => false
  | _ => true
  end.

(** The first value of a list of candidates that is not nullish. *)
Definition firstNonNullish (candidates : list JsVal) : option JsVal :=
  find (fun v => negb (nullish v)) candidates.

(** The six candidates as the specification lists them: the owner
    reference and the user count as candidates themselves only when they
    are primitives. *)
Definition specCandidates (record : Appointment) : list JsVal :=
  [ optField (field record "patient") "_id";
    if isPrimitive (field record "patient")
    then field record "patient" else JUndefined;
    field record "patientId";
    optField (field record "user") "_id";
    if isPrimitive (field record "user")
    then field record "user" else JUndefined;
    field record "userId" ].

Definition resolveAppointmentOwnerId_spec (record : Appointment) : JsString :=
  match firstNonNullish (specCandidates record) with
  | Some v => toString v
  | None => []
  end.

(** The six operands of the chain of [??] in the source, in order. *)
Definition ownerCandidates (appointment : Appointment) : list JsVal :=
  [ optField (field appointment "patient") "_id";
    field appointment "patient";
    field appointment "patientId";
    optField (field appointment "user") "_id";
    field appointment "user";
    field appointment "userId" ].

(** Owner resolution written out: the first of the six operands that is
    not nullish, coerced to a string, and the empty string when there is
    none. *)
Definition resolvedOwnerId (appointment : Appointment) : JsString :=
  match firstNonNullish (ownerCandidates appointment) with
  | Some v => toString v
  | None => []
  end.

(** A record belongs to the patient when its owner resolves, in that
    way, to [patientId]. *)
Definition resolvesTo (patientId : JsString) (appointment : Appointment) : bool :=
  str_eqb (resolvedOwnerId appointment) patientId.

(** The specification's "resolved owner id (4.1) equals [patientId]". *)
Definition ownedBySpec (patientId : JsString) (record : Appointment) : bool :=
  str_eqb (resolveAppointmentOwnerId_spec record) patientId.

(** The owner reference and the user of a record are each a primitive or
    carry an [_id] that is not nullish. *)
Definition ownerRefsWellShaped (record : Appointment) : bool :=
  (isPrimitive (field record "patient") ||
   negb (nullish (optField (field record "patient") "_id"))) &&
  (isPrimitive (field record "user") ||
   negb (nullish (optField (field record "user") "_id"))).

(** The date test on instants: [new Date(appointmentDate)] is a valid
    date and is not before the start of today. *)
Definition instantNotBeforeToday (appointment : Appointment) : bool :=
  match newDate (field appointment "appointmentDate") with
  | Some t => (startOfLocalDay now <=? t)%Z
  | None => false
  end.


(** *** PatientDashboard: the recent list *)

(** What the appointments fetch contributes to the load: its payload, and
    the empty list when it was rejected or delivered none. *)
Definition deliveredAppointments
    (getAll : Settled (option (list Appointment))) : list Appointment :=
  match getAll with
  | Fulfilled payload => orEmpty payload
  | Rejected _ => []
  end.



(** *** Appointments.jsx: handlers *)

Definition handleFieldChange (name : FieldName) (value : JsString)
    (st : Page.t) : Page.t :=
  Page.mk (Page.appointments st) (Page.doctors st) (Page.loading st)
    (setFormField name value (Page.formData st))
    (setErrorField name (getFieldValidationError (fieldKey name) value)
       (Page.errors st))
    [] (Page.submitting st).

(** The [onChange] of the symptoms textarea:
    [setFormData({ ...formData, symptoms: e.target.value })]. *)
Definition changeSymptoms (value : JsString) (st : Page.t) : Page.t :=
  let data := Page.formData st in
  Page.mk (Page.appointments st) (Page.doctors st) (Page.loading st)
    (FormData.mk (FormData.doctor data) (FormData.appointmentDate data)
       (FormData.appointmentTime data) (FormData.reason data) value)
    (Page.errors st) (Page.submitError st) (Page.submitting st).

(** [refreshAppointments()] once [appointmentService.getAll()] has
    settled; the payload is [None] for a response without appointments,
    and a response that cannot be destructured throws inside the [try],
    which is the rejected path. *)
Definition refreshAppointments
    (getAll : Settled (option (list Appointment))) (st : Page.t) : Page.t :=
  match getAll with
  | Fulfilled data =>
      Page.mk (orEmpty data) (Page.doctors st) (Page.loading st)
        (Page.formData st) (Page.errors st) (Page.submitError st)
        (Page.submitting st)
  | Rejected _ => st
  end.

(** The condition under which a card of the list shows its Cancel button:
    [status !== 'cancelled' && status !== 'completed']. *)
Definition showsCancelButton (appointment : Appointment) : bool :=
  negb (strictEqStr (lit "cancelled") (field appointment "status")) &&
  negb (strictEqStr (lit "completed") (field appointment "status")).

(** *** Appointments.jsx: the view as a state machine *)

(** What can happen to a mounted view: a field or the symptoms are edited,
    the form is submitted, a call of [appointmentService.create] settles
    (and [setTimeout], if reached, returns [handle]), a list fetch of
    [refreshAppointments] settles, a timeout comes due, the view
    unmounts. *)
Inductive BookingEvent : Type :=
| EvChange (name : FieldName) (value : JsString)
| EvSymptoms (value : JsString)
| EvSubmit
| EvCreateSettled (outcome : CreateOutcome) (handle : nat)
| EvRefreshSettled (getAll : Settled (option (list Appointment)))
| EvTimeout (id : nat)
| EvUnmount.

Definition withPage (p : Page.t) (v : Booking.t) : Booking.t :=
  Booking.mk p (Booking.showForm v) (Booking.successMessage v)
    (Booking.timeoutRef v) (Booking.pendingTimeouts v).

Definition bookingStep (v : Booking.t) (ev : BookingEvent) : Booking.t :=
  match ev with
  | EvChange name value =>
      withPage (handleFieldChange name value (Booking.page v)) v
  | EvSymptoms value => withPage (changeSymptoms value (Booking.page v)) v
  | EvSubmit => withPage (fst (handleSubmit (Booking.page v))) v
  | EvCreateSettled outcome handle => createSettled outcome handle v
  | EvRefreshSettled getAll =>
      withPage (refreshAppointments getAll (Booking.page v)) v
  | EvTimeout id => timeoutFires id v
  | EvUnmount => unmount v
  end.

(** The view after a sequence of events. *)
Definition bookingRun (v : Booking.t) (evs : list BookingEvent) : Booking.t :=
  fold_left bookingStep evs v.

(** *** Invariants of the booking view *)

(** Every inline error on screen is the current verdict on its field: an
    error cell is empty or holds what the validator says of the value now
    in the form. *)
Definition ErrorsAreCurrent (p : Page.t) : Prop :=
  forall name,
    errorField name (Page.errors p) = [] \/
    errorField name (Page.errors p) =
    getFieldValidationError (fieldKey name) (formField name (Page.formData p)).

(** The hide timer is the only timeout of the view: whatever is pending is
    the handle held by the ref, once. *)
Definition OneHideTimer (v : Booking.t) : Prop :=
  Booking.pendingTimeouts v = [] \/
  exists id,
    Booking.timeoutRef v = Some id /\ Booking.pendingTimeouts v = [id].

(** Both ids of the user are absent or strings. *)
Definition idsAreStrings (user : JsVal) : bool :=
  match optField user "_id", optField user "id" with
  | (JUndefined | JNull | JStr _), (JUndefined | JNull | JStr _) => true
  | _, _ => false
  end.

(** The two ids of the user do not disagree: one is absent, or they are
    the same string. *)
Definition idsAgree (user : JsVal) : bool :=
  match optField user "_id", optField user "id" with
  | JStr a, JStr b => str_eqb a b
  | _, _ => true
  end.

(** *** Assumption on numeric parsing *)

(** [Number] reads a string of two decimal digits as the number they
    write. *)
Definition ReadsTwoDigits : Prop :=
  forall a b, a < 10 -> b < 10 ->
    stringToNumber [digit a; digit b] = natToNumber (10 * a + b).

(** The comparison at the end of [isBusinessHours], on the two numbers
    read. *)
Definition withinBusinessMinutes (h m : float) : bool :=
  let minutes := (h * 60 + m)%float in
  ((BUSINESS_HOURS_start * 60 <=? minutes) &&
   (minutes <=? BUSINESS_HOURS_end * 60))%float.

(** ** Properties *)

(** *** Strings *)

Lemma str_eqb_eq (a b : JsString) : str_eqb a b = true <-> a = b.
Proof.
  revert b; induction a as [|x a IH]; intros [|y b]; simpl;
    try (split; [discriminate | congruence]); [tauto|].
  rewrite andb_true_iff, N.eqb_eq, IH.
  split; [intros [-> ->]; reflexivity | intros [= -> ->]; auto].
Qed.

(** *** The loop of the single pass *)

Lemma nth_error_skipn_cons {A : Type} (l : list A) (i : nat) (a : A) :
  nth_error l i = Some a -> skipn i l = a :: skipn (S i) l.
Proof.
  revert i; induction l as [|x l IH]; intros [|i] H; simpl in *;
    try discriminate.
  - congruence.
  - apply IH; assumption.
Qed.

Lemma nth_error_skipn_nil {A : Type} (l : list A) (i : nat) :
  nth_error l i = None -> skipn i l = [].
Proof.
  intros H; apply skipn_all2, nth_error_None; assumption.
Qed.

(** The indexed loop runs the body once on each record from the current
    index on, in order. *)
Lemma forLoop_fold (appointments : list Appointment) (patientId : JsVal)
    (todayStart : Date) (st : LoopState) :
  forLoop appointments patientId todayStart st =
  fold_left (fun s a => loopBody patientId todayStart a s)
            (skipn (idx st) appointments) st.
Proof.
  funelim (forLoop appointments patientId todayStart st).
  - (* a record was read: one run of the body, then the rest *)
    rewrite (nth_error_skipn_cons _ _ Hread). simpl fold_left.
    match goal with IH : forLoop _ _ _ (loopBody _ _ _ _) = fold_left _ _ _ |- _ =>
      rewrite IH end.
    f_equal. unfold loopBody.
    destruct (negb _); reflexivity.
  - (* the index has reached the length *)
    rewrite (nth_error_skipn_nil _ _ Hexit). reflexivity.
Qed.

Lemma fold_loopBody (patientId : JsVal) (todayStart : Date)
    (l : list Appointment) (st : LoopState) :
  let owned a := strictEqStr (getPatientIdFromAppointment a) patientId in
  let final := fold_left (fun s a => loopBody patientId todayStart a s) l st in
  idx final = idx st + length l /\
  out final = out st ++ filter owned l /\
  count final =
    count st + length (filter (countsAsUpcoming todayStart) (filter owned l)).
Proof.
  cbv zeta. revert st.
  induction l as [|a l IH]; intros st; simpl.
  - rewrite app_nil_r. repeat split; lia.
  - destruct (IH (loopBody patientId todayStart a st)) as (Hi & Ho & Hc).
    rewrite Hi, Ho, Hc. unfold loopBody.
    destruct (strictEqStr (getPatientIdFromAppointment a) patientId);
      simpl.
    + rewrite <- app_assoc. simpl.
      destruct (countsAsUpcoming todayStart a); simpl;
        repeat split; lia.
    + repeat split; lia.
Qed.

(** The result for a truthy [patientId], in closed form. *)
Lemma filter_closed_form (appointments : list Appointment) (patientId : JsVal) :
  truthy patientId = true ->
  let owned a := strictEqStr (getPatientIdFromAppointment a) patientId in
  filterAppointmentsForPatientAndCountUpcoming appointments patientId =
  mkFilterResult
    (filter owned appointments)
    (length (filter (countsAsUpcoming todayAtMidnight)
               (filter owned appointments))).
Proof.
  intros Ht. cbv zeta.
  unfold filterAppointmentsForPatientAndCountUpcoming.
  rewrite Ht. simpl negb. cbv iota.
  rewrite forLoop_fold. simpl skipn.
  destruct (fold_loopBody patientId todayAtMidnight appointments
              (mkLoop 0 [] 0)) as (_ & Ho & Hc).
  simpl in Ho, Hc. rewrite Ho, Hc. reflexivity.
Qed.

Lemma filter_falsy (appointments : list Appointment) (patientId : JsVal) :
  truthy patientId = false ->
  filterAppointmentsForPatientAndCountUpcoming appointments patientId =
  mkFilterResult [] 0.
Proof.
  intros Hf. unfold filterAppointmentsForPatientAndCountUpcoming.
  rewrite Hf. reflexivity.
Qed.

(** *** Patient-scoped filtering *)

(** C1.  With a falsy [patientId], the empty string in particular, the
    filter returns the empty list and the count [0] whatever the list of
    appointments holds; the results for any two lists are therefore the
    same, and nothing of the input reaches the caller. *)
Theorem falsy_patientId_yields_empty_result
    (appointments appointments' : list Appointment) (patientId : JsVal) :
  truthy patientId = false ->
  filterAppointmentsForPatientAndCountUpcoming appointments patientId =
    mkFilterResult [] 0 /\
  filterAppointmentsForPatientAndCountUpcoming appointments patientId =
    filterAppointmentsForPatientAndCountUpcoming appointments' patientId.
Proof.
  intros Hf. rewrite !filter_falsy by assumption. split; reflexivity.
Qed.

Lemma countsAsUpcoming_is_upcomingBySpec (appointment : Appointment) :
  LocalCalendar ->
  countsAsUpcoming todayAtMidnight appointment = upcomingBySpec appointment.
Proof.
  intros [Hle Hmono Hidem].
  unfold countsAsUpcoming, upcomingBySpec, onOrAfterTodayDateOnly,
    statusPendingOrConfirmed, todayAtMidnight.
  rewrite (orb_comm (strictEqStr (lit "confirmed") _)).
  f_equal.
  destruct (newDate (field appointment "appointmentDate")) as [t|];
    [|reflexivity].
  simpl. apply eq_true_iff_eq. rewrite !Z.leb_le. split; intros H.
  - rewrite <- (Hidem now). apply Hmono; assumption.
  - specialize (Hle t). lia.
Qed.

(** C9.  For every list of appointments and every [patientId], the count
    of upcoming appointments is at most the length of the returned list. *)
Theorem upcomingCount_le_length
    (appointments : list Appointment) (patientId : JsVal) :
  let r := filterAppointmentsForPatientAndCountUpcoming appointments patientId in
  upcomingCount r <= length (patientAppointments r).
Proof.
  cbv zeta. destruct (truthy patientId) eqn:Ht.
  - rewrite (filter_closed_form appointments _ Ht). cbv zeta. simpl.
    apply filter_length_le.
  - rewrite (filter_falsy appointments _ Ht). simpl. lia.
Qed.

(** *** Owner resolution *)

(** A chain [a ?? b ?? ... ?? d] evaluates to its first operand that is
    not nullish, and to its last operand when there is none before it. *)
Lemma coalesce_chain (rest : list JsVal) (a d : JsVal) :
  fold_left coalesce (rest ++ [d]) a =
  match firstNonNullish (a :: rest) with
  | Some v => v
  | None => d
  end.
Proof.
  unfold firstNonNullish.
  revert a; induction rest as [|b rest IH]; intros a.
  - simpl. unfold coalesce. destruct (nullish a); reflexivity.
  - change (fold_left coalesce ((b :: rest) ++ [d]) a)
      with (fold_left coalesce (rest ++ [d]) (a ?? b)).
    rewrite IH. unfold coalesce. simpl.
    destruct (nullish a) eqn:Ha; simpl.
    + reflexivity.
    + rewrite Ha. reflexivity.
Qed.

Lemma getPatientIdFromAppointment_candidates (appointment : Appointment) :
  getPatientIdFromAppointment appointment =
  match firstNonNullish (ownerCandidates appointment) with
  | Some v => toString v
  | None => []
  end.
Proof.
  transitivity
    (toString
       match firstNonNullish (ownerCandidates appointment) with
       | Some v => v
       | None => JStr []
       end).
  - unfold getPatientIdFromAppointment. cbv zeta. f_equal.
    exact (coalesce_chain
             [ field appointment "patient";
               field appointment "patientId";
               optField (field appointment "user") "_id";
               field appointment "user";
               field appointment "userId" ]
             (optField (field appointment "patient") "_id") (JStr [])).
  - destruct (firstNonNullish _); reflexivity.
Qed.

Ltac split_nullish :=
  repeat (match goal with
          | |- context [nullish ?v] => destruct (nullish v) eqn:?
          end; cbn [negb orb andb find] in * ).

(** C4 (as amended).  [getPatientIdFromAppointment] coerces to a string the
    first value that is not nullish among, in this order, [patient?._id],
    [patient], [patientId], [user?._id], [user] and [userId], and returns
    the empty string when all six are nullish; being a total function it
    always returns a string.  A record carrying only [userId: 'u1'] resolves
    to ['u1'].  The result is the specification's whenever [patient] and
    [user] are each a primitive or carry a non-nullish [_id]. *)
Theorem getPatientIdFromAppointment_first_non_nullish
    (appointment : Appointment) :
  getPatientIdFromAppointment appointment =
    match firstNonNullish (ownerCandidates appointment) with
    | Some v => toString v
    | None => []
    end /\
  getPatientIdFromAppointment [("userId", JStr (lit "u1"))] = lit "u1" /\
  ((isPrimitive (field appointment "patient") ||
    negb (nullish (optField (field appointment "patient") "_id"))) &&
   (isPrimitive (field appointment "user") ||
    negb (nullish (optField (field appointment "user") "_id"))) = true ->
   getPatientIdFromAppointment appointment =
   resolveAppointmentOwnerId_spec appointment).
Proof.
  split; [|split].
  - apply getPatientIdFromAppointment_candidates.
  - reflexivity.
  - intros Hshape. rewrite getPatientIdFromAppointment_candidates.
    unfold resolveAppointmentOwnerId_spec, firstNonNullish, ownerCandidates,
      specCandidates.
    destruct (field appointment "patient") as [| | | | | |pp];
    destruct (field appointment "user") as [| | | | | |up];
    cbn [optField isPrimitive nullish negb orb andb find] in *;
    try discriminate; split_nullish;
    solve [reflexivity | congruence].
Qed.

(** *** Patient-scoped filtering, with the resolution written out *)

Lemma getPatientIdFromAppointment_resolved (appointment : Appointment) :
  getPatientIdFromAppointment appointment = resolvedOwnerId appointment.
Proof. apply getPatientIdFromAppointment_candidates. Qed.

Lemma resolution_agrees_when_well_shaped (record : Appointment) :
  ownerRefsWellShaped record = true ->
  getPatientIdFromAppointment record = resolveAppointmentOwnerId_spec record.
Proof.
  unfold ownerRefsWellShaped. intros Hshape.
  rewrite getPatientIdFromAppointment_candidates.
  unfold resolveAppointmentOwnerId_spec, firstNonNullish, ownerCandidates,
    specCandidates.
  destruct (field record "patient") as [| | | | | |pp];
    destruct (field record "user") as [| | | | | |up];
    cbn [optField isPrimitive nullish negb orb andb find] in Hshape |- *;
    try discriminate;
    repeat (match goal with
            | |- context [nullish ?v] => destruct (nullish v) eqn:?
            end; cbn [negb orb andb find] in Hshape |- * );
    solve [reflexivity | congruence].
Qed.

Lemma filter_filter_and {A : Type} (f g : A -> bool) (l : list A) :
  filter g (filter f l) = filter (fun a => f a && g a) l.
Proof.
  induction l as [|a l IH]; cbn [filter]; [reflexivity|].
  destruct (f a); cbn [filter andb]; [destruct (g a)|]; rewrite IH;
    reflexivity.
Qed.

Lemma countsAsUpcoming_on_instants (appointment : Appointment) :
  countsAsUpcoming todayAtMidnight appointment =
  instantNotBeforeToday appointment && statusPendingOrConfirmed appointment.
Proof.
  unfold countsAsUpcoming, instantNotBeforeToday, statusPendingOrConfirmed,
    todayAtMidnight.
  rewrite (orb_comm (strictEqStr (lit "confirmed") _)).
  destruct (newDate (field appointment "appointmentDate")); reflexivity.
Qed.

(** The result for a non-empty [patientId], over the input and with the
    resolution written out. *)
Lemma filter_over_the_input
    (appointments : list Appointment) (patientId : JsString) :
  patientId <> [] ->
  filterAppointmentsForPatientAndCountUpcoming appointments (JStr patientId) =
  mkFilterResult
    (filter (resolvesTo patientId) appointments)
    (length
       (filter
          (fun a =>
             resolvesTo patientId a && instantNotBeforeToday a &&
             statusPendingOrConfirmed a) appointments)).
Proof.
  intros Hne.
  assert (Ht : truthy (JStr patientId) = true)
    by (destruct patientId; [contradiction | reflexivity]).
  rewrite (filter_closed_form appointments _ Ht). cbv zeta.
  rewrite filter_filter_and. f_equal.
  - apply filter_ext. intros a. unfold resolvesTo.
    rewrite <- getPatientIdFromAppointment_resolved. reflexivity.
  - f_equal. apply filter_ext. intros a. unfold resolvesTo.
    rewrite <- getPatientIdFromAppointment_resolved.
    rewrite countsAsUpcoming_on_instants, andb_assoc. reflexivity.
Qed.



(** C2 (as amended).  For a non-empty [patientId], the returned
    appointments are the records of the input whose owner resolves to
    [patientId], the owner being the first of [patient?._id], [patient],
    [patientId], [user?._id], [user] and [userId] that is not nullish,
    coerced to a string; they come in their original order: the list is
    the input filtered by that test, and a record is returned exactly when
    it is in the input and resolves to the patient.  When the owner
    reference and the user of every record are each a primitive or carry
    an [_id], these are the records that the resolution function of the
    specification selects.  The loop that builds the list is one
    left-to-right run of its body over the input, which stops with the
    index at the input's length. *)
Theorem patientAppointments_are_the_owned_records_in_order
    (appointments : list Appointment) (patientId : JsString) :
  patientId <> [] ->
  let r :=
    filterAppointmentsForPatientAndCountUpcoming appointments (JStr patientId) in
  let start := mkLoop 0 [] 0 in
  patientAppointments r = filter (resolvesTo patientId) appointments /\
  (forall a,
     In a (patientAppointments r) <->
     In a appointments /\ resolvedOwnerId a = patientId) /\
  (forallb ownerRefsWellShaped appointments = true ->
   patientAppointments r = filter (ownedBySpec patientId) appointments) /\
  forLoop appointments (JStr patientId) todayAtMidnight start =
    fold_left (fun s a => loopBody (JStr patientId) todayAtMidnight a s)
      appointments start /\
  idx (forLoop appointments (JStr patientId) todayAtMidnight start) =
    length appointments.
Proof.
  intros Hne. cbv zeta.
  rewrite (filter_over_the_input appointments Hne).
  cbn [patientAppointments].
  split; [reflexivity|]. split; [|split].
  - intros a. unfold resolvesTo. rewrite filter_In, str_eqb_eq. reflexivity.
  - intros Hshape. apply filter_ext_in. intros a Ha.
    unfold resolvesTo, ownedBySpec.
    rewrite <- getPatientIdFromAppointment_resolved.
    rewrite resolution_agrees_when_well_shaped; [reflexivity|].
    rewrite forallb_forall in Hshape. apply Hshape. exact Ha.
  - rewrite forLoop_fold. cbn [idx skipn]. split; [reflexivity|].
    destruct (fold_loopBody (JStr patientId) todayAtMidnight appointments
                (mkLoop 0 [] 0)) as (Hi & _).
    rewrite Hi. reflexivity.
Qed.


(** *** The patient id of the load cycle *)

(** C5.  The load cycle does not resolve the patient id the way
    [getCurrentPatientId] does: for the user [{ _id: 'a', id: 'b' }] the
    helper returns ['a'] while the hook computes ['b'], passes ['b'] to the
    filter, and so shows the records owned by ['b']. *)
Theorem hook_resolves_id_before__id :
  let user := JObj [("_id", JStr (lit "a")); ("id", JStr (lit "b"))] in
  let ofA : Appointment := [("patient", JStr (lit "a"))] in
  let ofB : Appointment := [("patient", JStr (lit "b"))] in
  getCurrentPatientId user = lit "a" /\
  hookCurrentPatientId user = lit "b" /\
  forall stats st,
    Dash.appointments
      (usePatientDashboardData user false
         (mkFetches (Fulfilled stats) (Fulfilled (Some [ofA; ofB]))
            (Fulfilled None) (Fulfilled None)) st) = [ofB].
Proof.
  cbv zeta. split; [reflexivity|]. split; [reflexivity|].
  intros stats st.
  unfold usePatientDashboardData.
  change (hookCurrentPatientId _) with (lit "b").
  change (negb (str_truthy (lit "b"))) with false. cbv iota.
  unfold fetchDashboardData, promiseAll4, catchWith, orEmpty.
  cbn [getStats getAllAppointments getAllAnalyses getTrends].
  rewrite filter_closed_form by reflexivity.
  reflexivity.
Qed.

(** *** Failures during loading *)

(** C6 (as amended).  In the dashboard's load, a rejected stats fetch is
    the failure that surfaces: the error is stored and its message is what
    the view shows.  With the stats delivered, a rejected appointments,
    analyses or trends fetch is replaced by an empty collection and no
    error is recorded, whoever the user is.  On the appointments page a
    rejected doctor-list fetch leaves the state as it was, and a rejected
    appointments fetch stores the empty list and ends the loading state
    without touching the only error message of that page. *)
Theorem only_a_rejected_stats_fetch_surfaces_an_error
    (currentPatientId : JsString) (cancelled : bool) (e : JsError)
    (stats : option JsObject)
    (appointments : Settled (option (list Appointment)))
    (analyses trends : Settled (option (list JsVal)))
    (st : Dash.t) (page : Page.t) :
  (let st' :=
     fetchDashboardData currentPatientId false
       (mkFetches (Rejected e) appointments analyses trends) st in
   Dash.error st' = Some e /\ render st' = ViewError (message e)) /\
  (let net := mkFetches (Fulfilled stats) appointments analyses trends in
   let recovered :=
     mkFetches (Fulfilled stats)
       (catchWith appointments (Some [])) (catchWith analyses (Some []))
       (catchWith trends (Some [])) in
   fetchDashboardData currentPatientId cancelled net st =
     fetchDashboardData currentPatientId cancelled recovered st /\
   Dash.error (fetchDashboardData currentPatientId cancelled net st) =
     Dash.error st /\
   forall user,
     Dash.error (usePatientDashboardData user cancelled net st) = None) /\
  (forall e1 e2 e3,
     fetchDashboardData currentPatientId false
       (mkFetches (Fulfilled stats) (Rejected e1) (Rejected e2) (Rejected e3))
       st =
     Dash.mk
       (Some (mkStats (match stats with Some o => o | None => [] end) 0 0))
       [] [] [] false (Dash.error st)) /\
  loadDoctors cancelled (Rejected e) page = page /\
  Page.appointments (loadAppointments false (Rejected e) page) = [] /\
  Page.loading (loadAppointments false (Rejected e) page) = false /\
  Page.submitError (loadAppointments false (Rejected e) page) =
    Page.submitError page.
Proof.
  split; [|split; [|split]].
  - cbv zeta. unfold fetchDashboardData, promiseAll4. simpl.
    split; reflexivity.
  - cbv zeta.
    assert (Herr : forall pid st0,
      Dash.error
        (fetchDashboardData pid cancelled
           (mkFetches (Fulfilled stats) appointments analyses trends) st0) =
      Dash.error st0).
    { intros pid st0. unfold fetchDashboardData, promiseAll4, catchWith.
      simpl. destruct appointments, analyses, trends, cancelled;
        reflexivity. }
    split; [|split].
    + unfold fetchDashboardData, promiseAll4, catchWith. simpl.
      destruct appointments, analyses, trends; reflexivity.
    + apply Herr.
    + intros user. unfold usePatientDashboardData.
      destruct (negb (str_truthy (hookCurrentPatientId user)));
        [reflexivity|].
      rewrite Herr. reflexivity.
  - intros e1 e2 e3.
    unfold fetchDashboardData, promiseAll4, catchWith, orEmpty.
    cbn [getStats getAllAppointments getAllAnalyses getTrends].
    destruct (truthy (JStr currentPatientId)) eqn:Ht.
    + rewrite filter_closed_form by assumption. reflexivity.
    + rewrite filter_falsy by assumption. reflexivity.
  - repeat split; reflexivity.
Qed.

(** *** Booking-form validation *)

Lemma getFieldValidationError_reason (value : JsString) :
  getFieldValidationError (lit "reason") value =
  if str_truthy value
  then
    if (REASON_MIN_LENGTH <=? length (trim value))%nat then []
    else lit "Reason must be at least 10 characters"
  else lit "Reason must be at least 10 characters".
Proof. reflexivity. Qed.

(** C7.  The field validator reports no error for an empty
    [appointmentDate] and for an empty [appointmentTime], reports an error
    for an empty [reason], and for a non-empty [reason] reports no error
    exactly when the trimmed value has at least 10 characters. *)
Theorem empty_date_and_time_pass_but_reason_needs_ten_characters :
  getFieldValidationError (lit "appointmentDate") [] = [] /\
  getFieldValidationError (lit "appointmentTime") [] = [] /\
  getFieldValidationError (lit "reason") [] <> [] /\
  forall value,
    value <> [] ->
    (getFieldValidationError (lit "reason") value = [] <->
     10 <= length (trim value)).
Proof.
  split; [reflexivity|]. split; [reflexivity|]. split; [discriminate|].
  intros value Hne. rewrite getFieldValidationError_reason.
  destruct value as [|c value]; [contradiction|].
  cbn [str_truthy]. unfold REASON_MIN_LENGTH.
  destruct (Nat.leb_spec 10 (length (trim (c :: value)))) as [Hle|Hlt].
  - split; auto.
  - split; [discriminate | lia].
Qed.

(** *** Business hours *)

Lemma digit_is_not_colon (d : nat) : d < 10 -> N.eqb (digit d) colon = false.
Proof.
  intros Hd. apply N.eqb_neq. unfold digit, colon. lia.
Qed.

Lemma splitOn_hhmm (h m : nat) :
  h < 100 -> m < 100 ->
  splitOn colon (hhmm h m) =
  [[digit (h / 10); digit (h mod 10)]; [digit (m / 10); digit (m mod 10)]].
Proof.
  intros Hh Hm.
  assert (h / 10 < 10) by (apply Nat.Div0.div_lt_upper_bound; lia).
  assert (m / 10 < 10) by (apply Nat.Div0.div_lt_upper_bound; lia).
  assert (h mod 10 < 10) by (apply Nat.mod_upper_bound; lia).
  assert (m mod 10 < 10) by (apply Nat.mod_upper_bound; lia).
  unfold hhmm. cbn [splitOn].
  rewrite !digit_is_not_colon by assumption.
  reflexivity.
Qed.

(** On a two-digit time the predicate is the comparison of the minutes
    with the two bounds. *)
Lemma isBusinessHours_hhmm (h m : nat) :
  ReadsTwoDigits -> h < 100 -> m < 100 ->
  isBusinessHours (hhmm h m) =
  withinBusinessMinutes (natToNumber h) (natToNumber m).
Proof.
  intros Hnum Hh Hm. unfold isBusinessHours.
  rewrite splitOn_hhmm by assumption.
  change (str_truthy (hhmm h m)) with true.
  cbn [negb map nth_error].
  rewrite !Hnum
    by (try (apply Nat.Div0.div_lt_upper_bound; lia);
        try (apply Nat.mod_upper_bound; lia)).
  rewrite <- !Nat.div_mod_eq. reflexivity.
Qed.

(** The comparison on floats agrees with the comparison of the minutes as
    natural numbers on every time of the day; checked on all 1440 of
    them. *)
Lemma withinBusinessMinutes_of_day (h m : nat) :
  h < 24 -> m < 60 ->
  withinBusinessMinutes (natToNumber h) (natToNumber m) =
  ((9 * 60 <=? 60 * h + m) && (60 * h + m <=? 17 * 60))%nat.
Proof.
  intros Hh Hm.
  assert (Hall :
    forallb (fun h' =>
      forallb (fun m' =>
        Bool.eqb (withinBusinessMinutes (natToNumber h') (natToNumber m'))
          ((9 * 60 <=? 60 * h' + m') && (60 * h' + m' <=? 17 * 60))%nat)
        (seq 0 60)) (seq 0 24) = true)
    by (vm_compute; reflexivity).
  rewrite forallb_forall in Hall.
  specialize (Hall h). rewrite in_seq in Hall.
  assert (Hrow := Hall (conj (Nat.le_0_l h) Hh)).
  rewrite forallb_forall in Hrow.
  specialize (Hrow m). rewrite in_seq in Hrow.
  apply eqb_prop. apply Hrow. lia.
Qed.

(** C8.  Provided [Number] reads two-digit strings as written,
    [isBusinessHours] is false on ['08:59'], true on ['09:00'] and on
    ['17:00'], false on ['17:01'] and false on the empty string; and for
    every time of the day [hh:mm] it is true exactly when the minute of the
    day lies between 9:00 and 17:00, both included. *)
Theorem isBusinessHours_accepts_exactly_nine_to_seventeen :
  ReadsTwoDigits ->
  isBusinessHours (lit "08:59") = false /\
  isBusinessHours (lit "09:00") = true /\
  isBusinessHours (lit "17:00") = true /\
  isBusinessHours (lit "17:01") = false /\
  isBusinessHours [] = false /\
  forall h m, h < 24 -> m < 60 ->
    (isBusinessHours (hhmm h m) = true <-> 9 * 60 <= 60 * h + m <= 17 * 60).
Proof.
  intros Hnum.
  assert (Hday : forall h m, h < 24 -> m < 60 ->
    isBusinessHours (hhmm h m) =
    ((9 * 60 <=? 60 * h + m) && (60 * h + m <=? 17 * 60))%nat).
  { intros h m Hh Hm.
    rewrite isBusinessHours_hhmm by (assumption || lia).
    apply withinBusinessMinutes_of_day; assumption. }
  split; [|split; [|split; [|split; [|split]]]].
  - change (lit "08:59") with (hhmm 8 59). rewrite Hday by lia. reflexivity.
  - change (lit "09:00") with (hhmm 9 0). rewrite Hday by lia. reflexivity.
  - change (lit "17:00") with (hhmm 17 0). rewrite Hday by lia. reflexivity.
  - change (lit "17:01") with (hhmm 17 1). rewrite Hday by lia. reflexivity.
  - reflexivity.
  - intros h m Hh Hm. rewrite Hday by assumption.
    rewrite andb_true_iff, !Nat.leb_le. reflexivity.
Qed.

(** *** The submit gate *)

(** C10.  A form with a doctor chosen, a reason of at least 10 characters
    once trimmed, and both [appointmentDate] and [appointmentTime] empty
    validates to the all-empty error object.  It therefore counts as valid,
    the submit button is disabled only while a submission is in flight, and
    [handleSubmit] goes on to call [appointmentService.create] with that
    form, whose date and time are empty. *)
Theorem form_without_date_and_time_validates_and_submits (st : Page.t) :
  let formData := Page.formData st in
  FormData.doctor formData <> [] ->
  10 <= length (trim (FormData.reason formData)) ->
  FormData.appointmentDate formData = [] ->
  FormData.appointmentTime formData = [] ->
  validateBookingForm formData = FieldErrors.mk [] [] [] [] /\
  isFormValid formData = true /\
  submitDisabled st = Page.submitting st /\
  snd (handleSubmit st) = Some formData /\
  (forall payload,
     snd (handleSubmit st) = Some payload ->
     FormData.appointmentDate payload = [] /\
     FormData.appointmentTime payload = []).
Proof.
  cbv zeta. intros Hdoctor Hreason Hdate Htime.
  assert (Hvalid : validateBookingForm (Page.formData st) =
                   FieldErrors.mk [] [] [] []).
  { unfold validateBookingForm. rewrite Hdate, Htime.
    rewrite getFieldValidationError_reason.
    change (getFieldValidationError (lit "doctor")
              (FormData.doctor (Page.formData st)))
      with (if str_truthy (FormData.doctor (Page.formData st))
            then [] else lit "Doctor selection is required").
    destruct (FormData.doctor (Page.formData st)); [contradiction|].
    destruct (FormData.reason (Page.formData st)) as [|c r];
      [simpl in Hreason; lia|].
    cbn [str_truthy]. unfold REASON_MIN_LENGTH.
    destruct (Nat.leb_spec 10 (length (trim (c :: r)))); [reflexivity | lia]. }
  assert (Hsubmit : snd (handleSubmit st) = Some (Page.formData st))
    by (unfold handleSubmit; rewrite Hvalid; reflexivity).
  split; [exact Hvalid|]. split; [|split; [|split]].
  - unfold isFormValid. rewrite Hvalid. reflexivity.
  - unfold submitDisabled, isFormValid. rewrite Hvalid. reflexivity.
  - exact Hsubmit.
  - intros payload Hp. rewrite Hsubmit in Hp. injection Hp as <-. auto.
Qed.

(** ** Further properties *)

(** *** Owner resolution and the filter *)

(** Equal code units, equal strings. *)
Lemma str_eqb_sound (a b : JsString) : str_eqb a b = true -> a = b.
Proof using.
  revert b; induction a as [|x a IH]; intros [|y b] H;
    cbn [str_eqb] in H; try discriminate; [reflexivity|].
  apply andb_true_iff in H. destruct H as [Hx Hab].
  apply N.eqb_eq in Hx. rewrite Hx, (IH b Hab). reflexivity.
Qed.

(** X1.  The patient-shaped fields shadow the user-shaped ones: when
    [patient] or [patientId] is not nullish, two records that agree on
    these two fields resolve to the same owner, whatever their [user] and
    [userId] hold. *)
Theorem patient_fields_shadow_user_fields (a a' : Appointment) :
  field a "patient" = field a' "patient" ->
  field a "patientId" = field a' "patientId" ->
  nullish (field a "patient") && nullish (field a "patientId") = false ->
  getPatientIdFromAppointment a = getPatientIdFromAppointment a'.
Proof.
  intros Hp Hpid Hsome.
  rewrite !getPatientIdFromAppointment_candidates.
  unfold firstNonNullish, ownerCandidates.
  rewrite <- Hp, <- Hpid. cbn [find].
  destruct (nullish (optField (field a "patient") "_id")); cbn [negb];
    [|reflexivity].
  destruct (nullish (field a "patient")); cbn [negb]; [|reflexivity].
  destruct (nullish (field a "patientId")); cbn [negb];
    [discriminate | reflexivity].
Qed.

Lemma filter_nothing {A : Type} (f : A -> bool) (l : list A) :
  (forall a, f a = false) -> filter f l = [].
Proof.
  intros Hf. induction l as [|a l IH]; simpl; [reflexivity|].
  rewrite Hf. exact IH.
Qed.

Lemma filter_filter_same {A : Type} (f : A -> bool) (l : list A) :
  filter f (filter f l) = filter f l.
Proof.
  induction l as [|a l IH]; simpl; [reflexivity|].
  destruct (f a) eqn:Ha; simpl; rewrite ?Ha, IH; reflexivity.
Qed.

(** The result for any [patientId], truthy or not. *)
Lemma filter_result_cases (appointments : list Appointment) (patientId : JsVal) :
  let owned a := strictEqStr (getPatientIdFromAppointment a) patientId in
  filterAppointmentsForPatientAndCountUpcoming appointments patientId =
  if truthy patientId
  then
    mkFilterResult
      (filter owned appointments)
      (length (filter (countsAsUpcoming todayAtMidnight)
                 (filter owned appointments)))
  else mkFilterResult [] 0.
Proof.
  cbv zeta. destruct (truthy patientId) eqn:Ht.
  - apply filter_closed_form; assumption.
  - apply filter_falsy; assumption.
Qed.

(** X2.  On the empty list the filter returns the empty list and the count
    [0], for every [patientId]. *)
Theorem filter_of_the_empty_list (patientId : JsVal) :
  filterAppointmentsForPatientAndCountUpcoming [] patientId =
  mkFilterResult [] 0.
Proof.
  rewrite filter_result_cases. destruct (truthy patientId); reflexivity.
Qed.

(** X3.  The filter distributes over concatenation: the records returned
    for [l1 ++ l2] are those returned for [l1] followed by those returned
    for [l2], and the counts add up. *)
Theorem filter_of_a_concatenation
    (l1 l2 : list Appointment) (patientId : JsVal) :
  let r1 := filterAppointmentsForPatientAndCountUpcoming l1 patientId in
  let r2 := filterAppointmentsForPatientAndCountUpcoming l2 patientId in
  filterAppointmentsForPatientAndCountUpcoming (l1 ++ l2) patientId =
  mkFilterResult
    (patientAppointments r1 ++ patientAppointments r2)
    (upcomingCount r1 + upcomingCount r2).
Proof.
  cbv zeta. rewrite !filter_result_cases.
  destruct (truthy patientId); [|reflexivity].
  cbn [patientAppointments upcomingCount].
  rewrite !filter_app, length_app. reflexivity.
Qed.

(** X4.  The filter is idempotent: run again on the records it returned,
    with the same [patientId], it returns the same records and the same
    count. *)
Theorem filter_is_idempotent
    (appointments : list Appointment) (patientId : JsVal) :
  let r := filterAppointmentsForPatientAndCountUpcoming appointments patientId in
  filterAppointmentsForPatientAndCountUpcoming (patientAppointments r) patientId
  = r.
Proof.
  cbv zeta. rewrite !filter_result_cases.
  destruct (truthy patientId) eqn:Ht; cbn [patientAppointments];
    rewrite ?Ht; [|reflexivity].
  rewrite filter_filter_same. reflexivity.
Qed.

(** X5.  The result depends on the patient's own records only: two lists
    that hold the same records of the patient, in the same order, give the
    same result, whatever else they hold. *)
Theorem filter_depends_on_own_records_only
    (l l' : list Appointment) (patientId : JsString) :
  filter (ownedBy patientId) l = filter (ownedBy patientId) l' ->
  filterAppointmentsForPatientAndCountUpcoming l (JStr patientId) =
  filterAppointmentsForPatientAndCountUpcoming l' (JStr patientId).
Proof.
  intros Hsame. rewrite !filter_result_cases.
  change (fun a => strictEqStr (getPatientIdFromAppointment a) (JStr patientId))
    with (ownedBy patientId).
  rewrite Hsame. reflexivity.
Qed.

(** X6.  A [patientId] that is not a string matches no record: the
    comparison is strict, and the resolved owner is always a string. *)
Theorem non_string_patientId_matches_nothing
    (appointments : list Appointment) (patientId : JsVal) :
  (forall s, patientId <> JStr s) ->
  filterAppointmentsForPatientAndCountUpcoming appointments patientId =
  mkFilterResult [] 0.
Proof.
  intros Hns. rewrite filter_result_cases.
  destruct (truthy patientId); [|reflexivity].
  rewrite filter_nothing; [reflexivity|].
  intros a. destruct patientId; try reflexivity.
  exfalso. eapply Hns. reflexivity.
Qed.

(** X7.  No record is returned for two different patients. *)
Theorem results_of_different_patients_are_disjoint
    (appointments : list Appointment) (p q : JsString) (a : Appointment) :
  p <> q ->
  In a (patientAppointments
          (filterAppointmentsForPatientAndCountUpcoming appointments (JStr p))) ->
  ~ In a (patientAppointments
            (filterAppointmentsForPatientAndCountUpcoming appointments (JStr q))).
Proof.
  intros Hpq Hp Hq.
  rewrite filter_result_cases in Hp, Hq.
  destruct (truthy (JStr p)); [|destruct Hp].
  destruct (truthy (JStr q)); [|destruct Hq].
  cbn [patientAppointments] in Hp, Hq.
  apply filter_In in Hp. apply filter_In in Hq.
  destruct Hp as [_ Hp]. destruct Hq as [_ Hq].
  apply str_eqb_eq in Hp. apply str_eqb_eq in Hq. congruence.
Qed.

(** *** The load cycle *)

(** X8.  A cancelled load writes nothing: whatever the fetches delivered,
    [fetchDashboardData], [loadAppointments] and [loadDoctors] leave the
    state as it was when the view has unmounted in the meantime. *)
Theorem cancelled_loads_write_nothing
    (currentPatientId : JsString) (net : DashboardFetches) (st : Dash.t)
    (appointments : Settled (option (list Appointment)))
    (doctors : Settled (option (list JsVal))) (page : Page.t) :
  fetchDashboardData currentPatientId true net st = st /\
  loadAppointments true appointments page = page /\
  loadDoctors true doctors page = page.
Proof.
  split; [|split].
  - unfold fetchDashboardData, promiseAll4, catchWith.
    destruct (getStats net), (getAllAppointments net), (getAllAnalyses net),
      (getTrends net); reflexivity.
  - reflexivity.
  - destruct doctors; reflexivity.
Qed.

Lemma fetchDashboardData_committed (currentPatientId : JsString)
    (stats : option JsObject)
    (appointments : Settled (option (list Appointment)))
    (analyses trends : Settled (option (list JsVal))) (st : Dash.t) :
  let r :=
    filterAppointmentsForPatientAndCountUpcoming
      (deliveredAppointments appointments) (JStr currentPatientId) in
  let st' :=
    fetchDashboardData currentPatientId false
      (mkFetches (Fulfilled stats) appointments analyses trends) st in
  Dash.stats st' =
    Some (mkStats (match stats with Some o => o | None => [] end)
            (length (patientAppointments r)) (upcomingCount r)) /\
  Dash.appointments st' = patientAppointments r /\
  Dash.loading st' = false.
Proof.
  cbv zeta. unfold fetchDashboardData, promiseAll4, catchWith.
  cbn [getStats getAllAppointments getAllAnalyses getTrends].
  destruct appointments, analyses, trends; repeat split; reflexivity.
Qed.

(** X9.  What a load commits is consistent and scoped to the patient: the
    count [myAppointments] is the length of the list shown,
    [upcomingAppointments] does not exceed it, and every record shown was
    delivered by the appointments fetch and is owned by the patient. *)
Theorem committed_load_is_consistent_and_patient_scoped
    (currentPatientId : JsString) (stats : option JsObject)
    (appointments : Settled (option (list Appointment)))
    (analyses trends : Settled (option (list JsVal))) (st : Dash.t) :
  let st' :=
    fetchDashboardData currentPatientId false
      (mkFetches (Fulfilled stats) appointments analyses trends) st in
  (exists s,
     Dash.stats st' = Some s /\
     myAppointments s = length (Dash.appointments st') /\
     upcomingAppointments s <= myAppointments s) /\
  (forall a,
     In a (Dash.appointments st') ->
     In a (deliveredAppointments appointments) /\
     getPatientIdFromAppointment a = currentPatientId).
Proof.
  cbv zeta.
  destruct (fetchDashboardData_committed currentPatientId stats appointments
              analyses trends st) as (Hs & Ha & _).
  rewrite Hs, Ha. split.
  - eexists. split; [reflexivity|]. cbn [myAppointments upcomingAppointments].
    split; [reflexivity|].
    rewrite filter_result_cases.
    destruct (truthy (JStr currentPatientId));
      cbn [patientAppointments upcomingCount];
      [apply filter_length_le | lia].
  - intros a. rewrite filter_result_cases.
    destruct (truthy (JStr currentPatientId)); cbn [patientAppointments];
      [|intros []].
    rewrite filter_In. intros [Hin Hown].
    apply str_eqb_eq in Hown. auto.
Qed.

(** X10.  A load that is not cancelled always ends the loading state,
    whichever fetches failed: the dashboard then shows its error view or
    its content, and the appointments page its list. *)
Theorem uncancelled_loads_end_the_loading_state
    (currentPatientId : JsString) (net : DashboardFetches) (st : Dash.t)
    (appointments : Settled (option (list Appointment))) (page : Page.t) :
  Dash.loading (fetchDashboardData currentPatientId false net st) = false /\
  render (fetchDashboardData currentPatientId false net st) <> ViewLoading /\
  Page.loading (loadAppointments false appointments page) = false.
Proof.
  assert (Hl : Dash.loading
                 (fetchDashboardData currentPatientId false net st) = false).
  { unfold fetchDashboardData, promiseAll4, catchWith.
    destruct (getStats net), (getAllAppointments net), (getAllAnalyses net),
      (getTrends net); reflexivity. }
  split; [exact Hl|]. split; [|reflexivity].
  unfold render. rewrite Hl.
  destruct (Dash.error _); discriminate.
Qed.

(** X11.  Without a resolved user id the hook fetches nothing: it ends the
    loading state, clears the error and leaves every data cell as it was,
    whatever the services would have delivered. *)
Theorem unresolved_user_loads_nothing
    (user : JsVal) (cancelled : bool) (net : DashboardFetches) (st : Dash.t) :
  hookCurrentPatientId user = [] ->
  usePatientDashboardData user cancelled net st =
  Dash.mk (Dash.stats st) (Dash.appointments st) (Dash.analyses st)
    (Dash.trends st) false None.
Proof.
  intros Hid. unfold usePatientDashboardData. rewrite Hid. reflexivity.
Qed.

(** X12.  The hook and [getCurrentPatientId] resolve the same patient id
    whenever the ids of the user are absent or strings and do not
    disagree (one of [_id] and [id] is absent, or both are the same
    string). *)
Theorem hook_and_helper_agree_on_consistent_ids (user : JsVal) :
  idsAreStrings user = true ->
  idsAgree user = true ->
  hookCurrentPatientId user = getCurrentPatientId user.
Proof using numberToString.
  unfold idsAreStrings, idsAgree, hookCurrentPatientId, hookUserId,
    getCurrentPatientId, coalesce.
  intros Hstr Hagree.
  destruct user as [| |b|x|s|items|props];
    cbn [optField nullish] in Hstr, Hagree |- *.
  - reflexivity.
  - reflexivity.
  - destruct b; reflexivity.
  - change (truthy JNull) with false. cbv iota.
    destruct (truthy (JNum x)); reflexivity.
  - destruct s; reflexivity.
  - reflexivity.
  - destruct (field props "_id") as [| | | |i1| |];
      destruct (field props "id") as [| | | |i2| |];
      try discriminate; cbn [nullish truthy toString] in Hagree |- *;
      try reflexivity;
      try (destruct i1; reflexivity);
      try (destruct i2; reflexivity).
    apply str_eqb_sound in Hagree. subst i2. destruct i1; reflexivity.
Qed.


(** *** The date and time rules *)

(** X14.  Given a calendar, [isDateInFuture] accepts exactly the non-empty
    strings from which [new Date] builds a valid date that is not before
    the start of today; the empty string, an invalid date and any moment
    of an earlier day are rejected, any moment of today is accepted. *)
Theorem isDateInFuture_accepts_today_and_later (dateStr : JsString) :
  LocalCalendar ->
  (isDateInFuture dateStr = true <->
   dateStr <> [] /\
   exists t, newDate (JStr dateStr) = Some t /\ (startOfLocalDay now <= t)%Z).
Proof.
  intros [Hle Hmono Hidem]. unfold isDateInFuture.
  destruct dateStr as [|c rest]; cbn [str_truthy negb].
  - split; [discriminate | intros [H _]; contradiction].
  - unfold setHoursZero, todayAtMidnight.
    destruct (newDate (JStr (c :: rest))) as [t|]; cbn [option_map date_ge].
    + rewrite Z.leb_le. split.
      * intros H. split; [discriminate|]. exists t. split; [reflexivity|].
        specialize (Hle t). lia.
      * intros [_ [t' [Ht' H]]]. injection Ht' as <-.
        rewrite <- (Hidem now). apply Hmono. exact H.
    + split; [discriminate | intros [_ [t' [Ht' _]]]; discriminate].
Qed.

(** X15.  The booking form and the dashboard apply the same date rule:
    given a calendar, a non-empty date passes [isDateInFuture] exactly when
    a pending or confirmed appointment carrying it counts as upcoming. *)
Theorem accepted_dates_are_the_upcoming_dates
    (dateStr : JsString) (appointment : Appointment) :
  LocalCalendar ->
  dateStr <> [] ->
  field appointment "appointmentDate" = JStr dateStr ->
  statusPendingOrConfirmed appointment = true ->
  countsAsUpcoming todayAtMidnight appointment = isDateInFuture dateStr.
Proof.
  intros cal Hne Hdate Hstatus.
  rewrite countsAsUpcoming_is_upcomingBySpec by assumption.
  unfold upcomingBySpec. rewrite Hstatus, andb_true_r.
  unfold onOrAfterTodayDateOnly, isDateInFuture, setHoursZero,
    todayAtMidnight.
  rewrite Hdate.
  destruct dateStr as [|c rest]; [contradiction|].
  cbn [str_truthy negb].
  destruct (newDate (JStr (c :: rest))); reflexivity.
Qed.

Lemma splitOn_three_parts (h m : nat) (rest : JsString) :
  h < 100 -> m < 100 ->
  splitOn colon (hhmm h m ++ colon :: rest) =
  [digit (h / 10); digit (h mod 10)] ::
  [digit (m / 10); digit (m mod 10)] :: splitOn colon rest.
Proof.
  intros Hh Hm.
  assert (h / 10 < 10) by (apply Nat.Div0.div_lt_upper_bound; lia).
  assert (m / 10 < 10) by (apply Nat.Div0.div_lt_upper_bound; lia).
  assert (h mod 10 < 10) by (apply Nat.mod_upper_bound; lia).
  assert (m mod 10 < 10) by (apply Nat.mod_upper_bound; lia).
  unfold hhmm. cbn [splitOn app].
  rewrite !digit_is_not_colon by assumption.
  change (N.eqb 58 colon) with true.
  change (N.eqb colon colon) with true.
  reflexivity.
Qed.

(** X16.  Provided [Number] reads two-digit strings as written, only the
    hours and the minutes of a time count: whatever follows a second colon
    (seconds, say) is ignored, and a time without a minutes part is taken
    as the full hour. *)
Theorem isBusinessHours_reads_hours_and_minutes_only
    (h m : nat) (rest : JsString) :
  ReadsTwoDigits -> h < 100 -> m < 100 ->
  isBusinessHours (hhmm h m ++ colon :: rest) = isBusinessHours (hhmm h m) /\
  isBusinessHours [digit (h / 10); digit (h mod 10)] =
    isBusinessHours (hhmm h 0).
Proof.
  intros Hnum Hh Hm.
  assert (h / 10 < 10) by (apply Nat.Div0.div_lt_upper_bound; lia).
  assert (h mod 10 < 10) by (apply Nat.mod_upper_bound; lia).
  assert (m / 10 < 10) by (apply Nat.Div0.div_lt_upper_bound; lia).
  assert (m mod 10 < 10) by (apply Nat.mod_upper_bound; lia).
  split.
  - rewrite isBusinessHours_hhmm by assumption.
    unfold isBusinessHours.
    rewrite splitOn_three_parts by assumption.
    change (str_truthy (hhmm h m ++ colon :: rest)) with true.
    cbn [negb map nth_error].
    rewrite !Hnum by assumption.
    rewrite <- !Nat.div_mod_eq. reflexivity.
  - rewrite isBusinessHours_hhmm by (assumption || lia).
    unfold isBusinessHours. cbn [str_truthy negb splitOn].
    rewrite !digit_is_not_colon by assumption.
    cbn [map nth_error].
    rewrite Hnum by assumption.
    rewrite <- Nat.div_mod_eq. reflexivity.
Qed.

(** *** Field and form validation *)

Lemma trimStart_skips_whitespace (pad s : JsString) :
  forallb isWhiteSpace pad = true -> trimStart (pad ++ s) = trimStart s.
Proof.
  induction pad as [|c pad IH]; intros Hpad; [reflexivity|].
  cbn [forallb] in Hpad. apply andb_true_iff in Hpad. destruct Hpad as [Hc Hpad].
  cbn [app trimStart]. rewrite Hc. apply IH; assumption.
Qed.

Lemma trimStart_keeps_what_follows (s x : JsString) :
  trimStart s <> [] -> trimStart (s ++ x) = trimStart s ++ x.
Proof.
  induction s as [|c s IH]; intros Hne; [contradiction|].
  cbn [app trimStart] in *.
  destruct (isWhiteSpace c); [apply IH; assumption | reflexivity].
Qed.

Lemma trimStart_nil_is_whitespace (s : JsString) :
  trimStart s = [] -> forallb isWhiteSpace s = true.
Proof.
  induction s as [|c s IH]; [reflexivity|].
  cbn [trimStart forallb].
  destruct (isWhiteSpace c); [exact IH | discriminate].
Qed.

Lemma forallb_rev {A : Type} (f : A -> bool) (l : list A) :
  forallb f (rev l) = forallb f l.
Proof.
  induction l as [|a l IH]; [reflexivity|].
  cbn [rev forallb]. rewrite forallb_app, IH. cbn [forallb].
  rewrite andb_true_r. apply andb_comm.
Qed.

(** Whitespace around a string does not survive [trim]. *)
Lemma trim_padding (before s after : JsString) :
  forallb isWhiteSpace before = true ->
  forallb isWhiteSpace after = true ->
  trim (before ++ s ++ after) = trim s.
Proof.
  intros Hb Ha. unfold trim.
  rewrite (trimStart_skips_whitespace before _ Hb).
  destruct (trimStart s) as [|c u] eqn:Hs.
  - assert (Hall : forallb isWhiteSpace (s ++ after) = true)
      by (rewrite forallb_app, (trimStart_nil_is_whitespace s Hs), Ha;
          reflexivity).
    rewrite <- (app_nil_r (s ++ after)).
    rewrite (trimStart_skips_whitespace _ [] Hall). reflexivity.
  - rewrite trimStart_keeps_what_follows by (rewrite Hs; discriminate).
    rewrite Hs, rev_app_distr.
    rewrite trimStart_skips_whitespace by (rewrite forallb_rev; exact Ha).
    reflexivity.
Qed.

(** X17.  The verdict on a reason depends on its trimmed value only:
    whitespace before and after it never counts towards the ten
    characters, so padding a reason changes nothing, and a reason made of
    whitespace alone is an error however long it is. *)
Theorem reason_is_judged_without_surrounding_whitespace
    (before value after : JsString) :
  forallb isWhiteSpace before = true ->
  forallb isWhiteSpace after = true ->
  getFieldValidationError (lit "reason") (before ++ value ++ after) =
    getFieldValidationError (lit "reason") value /\
  getFieldValidationError (lit "reason") (before ++ after) <> [].
Proof.
  intros Hb Ha.
  assert (Hpad : forall v,
    getFieldValidationError (lit "reason") (before ++ v ++ after) =
    getFieldValidationError (lit "reason") v).
  { intros v. rewrite !getFieldValidationError_reason.
    rewrite (trim_padding before v after Hb Ha).
    destruct v as [|c v].
    - change (trim []) with (@nil N). cbn [length].
      destruct (str_truthy _); reflexivity.
    - replace (str_truthy (before ++ (c :: v) ++ after)) with true
        by (destruct before; reflexivity).
      reflexivity. }
  split; [apply Hpad|].
  specialize (Hpad []). cbn [app] in Hpad. rewrite Hpad. discriminate.
Qed.

Lemma getFieldValidationError_doctor (value : JsString) :
  getFieldValidationError (lit "doctor") value =
  if str_truthy value then [] else lit "Doctor selection is required".
Proof. reflexivity. Qed.

Lemma getFieldValidationError_date (value : JsString) :
  getFieldValidationError (lit "appointmentDate") value =
  if str_truthy value
  then if isDateInFuture value then [] else lit "Date must be in the future"
  else [].
Proof. reflexivity. Qed.

Lemma getFieldValidationError_time (value : JsString) :
  getFieldValidationError (lit "appointmentTime") value =
  if str_truthy value
  then
    if isBusinessHours value then []
    else lit "Time must be during business hours (9 AM - 17 PM)"
  else [].
Proof. reflexivity. Qed.

(** X18.  The form is valid exactly when its four rules hold together: a
    doctor is chosen, the date is empty or not before today, the time is
    empty or within business hours, and the trimmed reason has at least
    ten characters; the symptoms play no part. *)
Theorem isFormValid_is_the_conjunction_of_the_four_rules (data : FormData.t) :
  isFormValid data =
  str_truthy (FormData.doctor data) &&
  (negb (str_truthy (FormData.appointmentDate data)) ||
   isDateInFuture (FormData.appointmentDate data)) &&
  (negb (str_truthy (FormData.appointmentTime data)) ||
   isBusinessHours (FormData.appointmentTime data)) &&
  (10 <=? length (trim (FormData.reason data)))%nat.
Proof.
  unfold isFormValid, validateBookingForm.
  cbn [FieldErrors.doctor FieldErrors.appointmentDate
       FieldErrors.appointmentTime FieldErrors.reason].
  rewrite getFieldValidationError_doctor, getFieldValidationError_date,
    getFieldValidationError_time, getFieldValidationError_reason.
  unfold REASON_MIN_LENGTH.
  destruct (str_truthy (FormData.doctor data));
    destruct (str_truthy (FormData.appointmentDate data));
    destruct (isDateInFuture (FormData.appointmentDate data));
    destruct (str_truthy (FormData.appointmentTime data));
    destruct (isBusinessHours (FormData.appointmentTime data));
    destruct (FormData.reason data) as [|c r]; cbn [str_truthy];
    try reflexivity;
    destruct (10 <=? length (trim (c :: r)))%nat; reflexivity.
Qed.

(** X19.  Evaluated at one clock reading, the submit handler and the
    submit button agree: [handleSubmit] hands the form to
    [appointmentService.create] exactly when [isFormValid] holds, whether
    or not a submission is already in flight; in both cases it stores the
    full validation result as the inline errors, and when it blocks it
    changes nothing else. *)
Theorem handleSubmit_lets_through_exactly_the_valid_forms (st : Page.t) :
  snd (handleSubmit st) =
    (if isFormValid (Page.formData st) then Some (Page.formData st) else None) /\
  Page.errors (fst (handleSubmit st)) = validateBookingForm (Page.formData st) /\
  (isFormValid (Page.formData st) = false ->
   fst (handleSubmit st) =
   Page.mk (Page.appointments st) (Page.doctors st) (Page.loading st)
     (Page.formData st) (validateBookingForm (Page.formData st))
     (Page.submitError st) (Page.submitting st)).
Proof.
  unfold handleSubmit, isFormValid.
  destruct (str_truthy (FieldErrors.doctor _));
    destruct (str_truthy (FieldErrors.appointmentDate _));
    destruct (str_truthy (FieldErrors.appointmentTime _));
    destruct (str_truthy (FieldErrors.reason _));
    cbn [orb andb negb fst snd Page.errors];
    repeat split; try reflexivity; discriminate.
Qed.

(** *** The booking view as a state machine *)

Lemma handleSubmit_page (st : Page.t) :
  Page.formData (fst (handleSubmit st)) = Page.formData st /\
  Page.errors (fst (handleSubmit st)) = validateBookingForm (Page.formData st) /\
  Page.submitting (fst (handleSubmit st)) =
    (isFormValid (Page.formData st) || Page.submitting st).
Proof.
  unfold handleSubmit, isFormValid.
  destruct (str_truthy (FieldErrors.doctor _));
    destruct (str_truthy (FieldErrors.appointmentDate _));
    destruct (str_truthy (FieldErrors.appointmentTime _));
    destruct (str_truthy (FieldErrors.reason _));
    cbn [orb andb negb fst Page.errors Page.formData Page.submitting];
    repeat split; reflexivity.
Qed.

Lemma validateBookingForm_field (name : FieldName) (data : FormData.t) :
  errorField name (validateBookingForm data) =
  getFieldValidationError (fieldKey name) (formField name data).
Proof. destruct name; reflexivity. Qed.

Lemma bookingStep_keeps_errors_current (v : Booking.t) (ev : BookingEvent) :
  ErrorsAreCurrent (Booking.page v) ->
  ErrorsAreCurrent (Booking.page (bookingStep v ev)).
Proof.
  intros Hcur name. specialize (Hcur name).
  destruct ev as [changed value|value| |outcome handle|getAll|id|];
    cbn [bookingStep withPage Booking.page].
  - unfold handleFieldChange. cbn [Page.errors Page.formData].
    destruct changed, name;
      cbn [errorField setErrorField formField setFormField fieldKey
           FieldErrors.doctor FieldErrors.appointmentDate
           FieldErrors.appointmentTime FieldErrors.reason
           FormData.doctor FormData.appointmentDate
           FormData.appointmentTime FormData.reason] in *;
      solve [right; reflexivity | exact Hcur].
  - unfold changeSymptoms. cbn [Page.errors Page.formData].
    destruct name;
      cbn [errorField formField FormData.doctor FormData.appointmentDate
           FormData.appointmentTime FormData.reason] in *;
      exact Hcur.
  - destruct (handleSubmit_page (Booking.page v)) as (Hdata & Herrs & _).
    rewrite Hdata, Herrs. right. apply validateBookingForm_field.
  - destruct outcome as [|serverMessage]; unfold createSettled;
      cbn [Booking.page Page.errors Page.formData].
    + left. destruct name; reflexivity.
    + exact Hcur.
  - destruct getAll; cbn [refreshAppointments Page.errors Page.formData];
      exact Hcur.
  - unfold timeoutFires. destruct (in_dec _ _ _); exact Hcur.
  - unfold unmount. destruct (Booking.timeoutRef v); exact Hcur.
Qed.

(** X20.  Under one clock reading, whatever the user and the network do
    to a mounted view, an inline error on screen is never stale: each
    error cell is empty or holds the validator's verdict on the value
    that is in the form at that moment. *)
Theorem inline_errors_are_never_stale (evs : list BookingEvent) :
  ErrorsAreCurrent (Booking.page (bookingRun mountedView evs)).
Proof.
  unfold bookingRun.
  assert (Hgen : forall v,
    ErrorsAreCurrent (Booking.page v) ->
    ErrorsAreCurrent (Booking.page (fold_left bookingStep evs v))).
  { induction evs as [|ev evs IH]; intros v Hv; [exact Hv|].
    cbn [fold_left]. apply IH. apply bookingStep_keeps_errors_current.
    exact Hv. }
  apply Hgen. intros name. left. destruct name; reflexivity.
Qed.

(** X21.  Edits of different fields commute, and of two edits of one
    field the later one wins. *)
Theorem field_edits_commute_and_the_last_one_wins
    (n1 n2 : FieldName) (v1 v2 : JsString) (st : Page.t) :
  (n1 <> n2 ->
   handleFieldChange n1 v1 (handleFieldChange n2 v2 st) =
   handleFieldChange n2 v2 (handleFieldChange n1 v1 st)) /\
  handleFieldChange n1 v1 (handleFieldChange n1 v2 st) =
  handleFieldChange n1 v1 st.
Proof.
  split.
  - intros Hne. destruct n1, n2; try contradiction; reflexivity.
  - destruct n1; reflexivity.
Qed.

(** X22.  The two loaders of the appointments page write different cells,
    so the order in which their fetches settle does not matter. *)
Theorem page_loaders_commute
    (c1 c2 : bool) (appointments : Settled (option (list Appointment)))
    (doctors : Settled (option (list JsVal))) (st : Page.t) :
  loadAppointments c1 appointments (loadDoctors c2 doctors st) =
  loadDoctors c2 doctors (loadAppointments c1 appointments st).
Proof.
  destruct c1, c2, appointments, doctors; reflexivity.
Qed.

(** X23.  A failed submission loses nothing the user typed: the form and
    its inline errors stay, the form stays open, the submitting flag is
    lowered, and a message is shown that is never empty: the server's
    when it sent a non-empty one, a fixed one otherwise. *)
Theorem failed_submission_keeps_the_form
    (serverMessage : option JsString) (handle : nat) (v : Booking.t) :
  let v' := createSettled (CreateFailed serverMessage) handle v in
  Page.formData (Booking.page v') = Page.formData (Booking.page v) /\
  Page.errors (Booking.page v') = Page.errors (Booking.page v) /\
  Booking.showForm v' = Booking.showForm v /\
  Page.submitting (Booking.page v') = false /\
  Page.submitError (Booking.page v') <> [] /\
  (forall m, serverMessage = Some m -> m <> [] ->
     Page.submitError (Booking.page v') = m).
Proof.
  cbv zeta. unfold createSettled.
  cbn [Booking.page Booking.showForm Page.formData Page.errors
       Page.submitting Page.submitError].
  repeat split.
  - destruct serverMessage as [[|c m]|]; discriminate.
  - intros m -> Hm. destruct m; [contradiction | reflexivity].
Qed.

Lemma clearTimeout_only (id : nat) : clearTimeout id [id] = [].
Proof.
  unfold clearTimeout. cbn [remove].
  destruct (Nat.eq_dec id id); [reflexivity | contradiction].
Qed.

Lemma createSettled_success_timers (handle : nat) (v : Booking.t) :
  OneHideTimer v ->
  Booking.timeoutRef (createSettled Created handle v) = Some handle /\
  Booking.pendingTimeouts (createSettled Created handle v) = [handle].
Proof.
  intros Hone. unfold createSettled.
  cbn [Booking.timeoutRef Booking.pendingTimeouts].
  split; [reflexivity|].
  destruct Hone as [Hnone | [id [Href Hpending]]].
  - rewrite Hnone. destruct (Booking.timeoutRef v); reflexivity.
  - rewrite Href, Hpending, clearTimeout_only. reflexivity.
Qed.

Lemma bookingStep_keeps_one_timer (v : Booking.t) (ev : BookingEvent) :
  OneHideTimer v -> OneHideTimer (bookingStep v ev).
Proof.
  intros Hone.
  destruct ev as [changed value|value| |outcome handle|getAll|id|];
    cbn [bookingStep]; try exact Hone.
  - destruct outcome as [|serverMessage]; [|exact Hone].
    destruct (createSettled_success_timers handle Hone) as [Href Hpending].
    right. eexists. split; eassumption.
  - unfold timeoutFires.
    destruct (in_dec Nat.eq_dec id (Booking.pendingTimeouts v)) as [Hin|];
      [|exact Hone].
    destruct Hone as [Hnone | [id' [Href Hpending]]].
    + rewrite Hnone in Hin. destruct Hin.
    + left. cbn [Booking.pendingTimeouts].
      rewrite Hpending in Hin |- *. destruct Hin as [<-|[]].
      apply clearTimeout_only.
  - unfold unmount.
    destruct Hone as [Hnone | [id' [Href Hpending]]].
    + destruct (Booking.timeoutRef v); left; cbn [Booking.pendingTimeouts];
        rewrite ?Hnone; reflexivity.
    + rewrite Href. left. cbn [Booking.pendingTimeouts].
      rewrite Hpending. apply clearTimeout_only.
Qed.

Lemma bookingRun_keeps_one_timer (v : Booking.t) (evs : list BookingEvent) :
  OneHideTimer v -> OneHideTimer (bookingRun v evs).
Proof.
  unfold bookingRun. revert v.
  induction evs as [|ev evs IH]; intros v Hv; [exact Hv|].
  cbn [fold_left]. apply IH. apply bookingStep_keeps_one_timer. exact Hv.
Qed.

(** X24.  A successful submission resets the view: the form and the inline
    errors return to their initial, empty values (so the form is invalid
    again and the submit button disabled), the form closes, the success
    message shows, the submitting flag is lowered, and exactly one
    timeout is pending, the one whose handle the ref holds. *)
Theorem successful_submission_resets_the_view
    (handle : nat) (v : Booking.t) :
  OneHideTimer v ->
  let v' := createSettled Created handle v in
  Page.formData (Booking.page v') = initialFormData /\
  Page.errors (Booking.page v') = initialErrors /\
  isFormValid (Page.formData (Booking.page v')) = false /\
  Booking.showForm v' = false /\
  Booking.successMessage v' = SUCCESS_MESSAGE /\
  Page.submitting (Booking.page v') = false /\
  Booking.timeoutRef v' = Some handle /\
  Booking.pendingTimeouts v' = [handle].
Proof.
  intros Hone. cbv zeta.
  destruct (createSettled_success_timers handle Hone) as [Href Hpending].
  repeat split; try reflexivity; assumption.
Qed.

(** X25.  However a mounted view is used, at most one timeout of it is
    pending, the hide timer whose handle the ref holds; unmounting then
    leaves none. *)
Theorem at_most_one_hide_timer_and_none_after_unmount
    (evs : list BookingEvent) :
  let v := bookingRun mountedView evs in
  OneHideTimer v /\
  length (Booking.pendingTimeouts v) <= 1 /\
  Booking.pendingTimeouts (unmount v) = [].
Proof.
  cbv zeta.
  assert (Hone : OneHideTimer (bookingRun mountedView evs))
    by (apply bookingRun_keeps_one_timer; left; reflexivity).
  split; [exact Hone|]. split.
  - destruct Hone as [-> | [id [_ ->]]]; cbn [length]; lia.
  - unfold unmount. destruct Hone as [Hnone | [id [Href Hpending]]].
    + destruct (Booking.timeoutRef _); cbn [Booking.pendingTimeouts];
        rewrite ?Hnone; reflexivity.
    + rewrite Href. cbn [Booking.pendingTimeouts].
      rewrite Hpending. apply clearTimeout_only.
Qed.

(** X26.  After a successful booking, when its hide timer comes due the
    success message is cleared, no timeout remains pending, and nothing
    else on the page changes. *)
Theorem hide_timer_clears_the_success_message
    (handle : nat) (v : Booking.t) :
  OneHideTimer v ->
  let booked := createSettled Created handle v in
  let hidden := timeoutFires handle booked in
  Booking.successMessage booked = SUCCESS_MESSAGE /\
  Booking.successMessage hidden = [] /\
  Booking.pendingTimeouts hidden = [] /\
  Booking.page hidden = Booking.page booked /\
  Booking.showForm hidden = Booking.showForm booked.
Proof.
  intros Hone. cbv zeta.
  destruct (createSettled_success_timers handle Hone) as [_ Hpending].
  unfold timeoutFires. rewrite Hpending.
  destruct (in_dec Nat.eq_dec handle [handle]) as [_|Hout];
    [|exfalso; apply Hout; left; reflexivity].
  cbn [Booking.successMessage Booking.pendingTimeouts Booking.page
       Booking.showForm].
  rewrite clearTimeout_only. repeat split; reflexivity.
Qed.

(** X27.  Every appointment that the dashboard counts as upcoming shows
    its Cancel button on the appointments page; a cancelled or completed
    one never does. *)
Theorem upcoming_appointments_can_be_cancelled
    (todayStart : Date) (appointment : Appointment) :
  (countsAsUpcoming todayStart appointment = true ->
   showsCancelButton appointment = true) /\
  (field appointment "status" = JStr (lit "cancelled") \/
   field appointment "status" = JStr (lit "completed") ->
   showsCancelButton appointment = false).
Proof using newDate.
  unfold countsAsUpcoming, showsCancelButton. split.
  - intros H. apply andb_true_iff in H. destruct H as [_ H].
    apply orb_true_iff in H.
    destruct (field appointment "status") as [| | | |s| |];
      unfold strictEqStr in H; try (destruct H; discriminate).
    destruct H as [H|H]; apply str_eqb_sound in H; subst s; reflexivity.
  - intros [-> | ->]; reflexivity.
Qed.

(** X28.  A submission that goes through raises the submitting flag, which
    disables the submit button until the call settles; once it has
    settled, either way, the flag is lowered again. *)
Theorem accepted_submission_disables_the_button_until_settled
    (outcome : CreateOutcome) (handle : nat) (v : Booking.t) :
  isFormValid (Page.formData (Booking.page v)) = true ->
  let inFlight := bookingStep v EvSubmit in
  Page.submitting (Booking.page inFlight) = true /\
  submitDisabled (Booking.page inFlight) = true /\
  Page.submitting (Booking.page (createSettled outcome handle inFlight)) = false.
Proof.
  intros Hvalid. cbv zeta. cbn [bookingStep withPage Booking.page].
  destruct (handleSubmit_page (Booking.page v)) as (_ & _ & Hflag).
  rewrite Hvalid in Hflag. cbn [orb] in Hflag.
  split; [exact Hflag|]. split.
  - unfold submitDisabled. rewrite Hflag. apply orb_true_r.
  - destruct outcome; reflexivity.
Qed.

End Host.







(** ** The properties on the sample host *)

Import SampleHost SampleData.

Lemma sample_calendar : LocalCalendar startOfLocalDay.
Proof.
  unfold startOfLocalDay, msPerDay.
  split.
  - intros t. pose proof (Z.mod_pos_bound t 86400000). lia.
  - intros a b Hab.
    pose proof (Z.div_le_mono a b 86400000).
    pose proof (Z.div_mod a 86400000). pose proof (Z.div_mod b 86400000).
    lia.
  - intros t.
    pose proof (Z.div_mod t 86400000).
    replace (t - t mod 86400000)%Z with (t / 86400000 * 86400000)%Z by lia.
    rewrite Z.mod_mul by lia. lia.
Qed.

Lemma sample_reads_two_digits : ReadsTwoDigits stringToNumber.
Proof.
  intros a b Ha Hb.
  do 10 (destruct a as [|a]; [do 10 (destruct b as [|b]; [reflexivity|]); lia|]).
  lia.
Qed.

(** The embedding applied to the sample host. *)
Local Abbreviation filterOnSample :=
  (filterAppointmentsForPatientAndCountUpcoming
     numberToString now startOfLocalDay newDate).
Local Abbreviation ownerOnSample := (getPatientIdFromAppointment numberToString).
Local Abbreviation todayOnSample := (todayAtMidnight now startOfLocalDay).
Local Abbreviation loopOnSample := (forLoop numberToString newDate).
Local Abbreviation bodyOnSample := (loopBody numberToString newDate).
Local Abbreviation countsOnSample := (countsAsUpcoming newDate todayOnSample).
Local Abbreviation hookOnSample :=
  (usePatientDashboardData numberToString now startOfLocalDay newDate).
Local Abbreviation fieldErrorOnSample :=
  (getFieldValidationError stringToNumber now startOfLocalDay newDate).
Local Abbreviation validateOnSample :=
  (validateBookingForm stringToNumber now startOfLocalDay newDate).

(** The example of the specification: of four records owned by
    [p1, p2, p1, p1] with statuses [confirmed, pending, cancelled, pending],
    all dated today, the three of [p1] come back in order and two of them
    are upcoming. *)
Example four_records_of_two_patients :
  filterOnSample fourRecords (JStr (lit "p1")) =
  mkFilterResult
    [record "1" "p1" "confirmed"; record "3" "p1" "cancelled";
     record "4" "p1" "pending"] 2.
Proof. vm_compute. reflexivity. Qed.

Lemma falsy_patientId_witness :
  filterOnSample fourRecords (JStr []) = mkFilterResult [] 0 /\
  filterOnSample fourRecords (JStr []) = filterOnSample [] (JStr []).
Proof.
  apply falsy_patientId_yields_empty_result. reflexivity.
Defined.

Lemma owned_records_witness :
  let r := filterOnSample fourRecords (JStr (lit "p1")) in
  let start := mkLoop 0 [] 0 in
  patientAppointments r =
    filter (resolvesTo numberToString (lit "p1")) fourRecords /\
  (forall a,
     In a (patientAppointments r) <->
     In a fourRecords /\ resolvedOwnerId numberToString a = lit "p1") /\
  (forallb ownerRefsWellShaped fourRecords = true ->
   patientAppointments r =
   filter (ownedBySpec numberToString (lit "p1")) fourRecords) /\
  loopOnSample fourRecords (JStr (lit "p1")) todayOnSample start =
    fold_left (fun s a => bodyOnSample (JStr (lit "p1")) todayOnSample a s)
      fourRecords start /\
  idx (loopOnSample fourRecords (JStr (lit "p1")) todayOnSample start) =
    length fourRecords.
Proof.
  apply (patientAppointments_are_the_owned_records_in_order
           numberToString now startOfLocalDay newDate fourRecords
           (patientId := lit "p1")).
  discriminate.
Defined.

(** C2, the claim as stated fails: of the one record whose [patient] is an
    object without [_id] and whose [patientId] is ['p3'], the resolution
    function of the specification makes a record of patient ['p3'], while
    the code returns nothing for that patient. *)
Lemma record_of_the_specification_is_not_returned :
  filter (ownedBySpec numberToString (lit "p3")) [ownerWithoutId] =
    [ownerWithoutId] /\
  patientAppointments (filterOnSample [ownerWithoutId] (JStr (lit "p3"))) =
    [] /\
  patientAppointments (filterOnSample [ownerWithoutId] (JStr (lit "p3"))) <>
  filter (ownedBySpec numberToString (lit "p3")) [ownerWithoutId].
Proof.
  vm_compute. split; [reflexivity|]. split; [reflexivity | discriminate].
Qed.




(** C4, the claim as stated fails: for a record whose [patient] is an
    object without [_id] and whose [patientId] is ['p3'], the code returns
    ['[object Object]'], while the order of candidates of the specification,
    which skips an owner reference that is not a primitive, gives ['p3']. *)
Lemma object_owner_without_id_is_not_skipped :
  ownerOnSample ownerWithoutId = lit "[object Object]" /\
  resolveAppointmentOwnerId_spec numberToString ownerWithoutId = lit "p3" /\
  ownerOnSample ownerWithoutId <>
  resolveAppointmentOwnerId_spec numberToString ownerWithoutId.
Proof.
  split; [reflexivity|]. split; [reflexivity|]. discriminate.
Qed.

(** C6, the claim as stated fails: when the appointments fetch is rejected
    and the other three are fulfilled, the load of the dashboard records no
    error and the view is the dashboard, with no appointments. *)
Lemma rejected_appointments_fetch_surfaces_no_error :
  let user := JObj [("id", JStr (lit "p1"))] in
  let net :=
    mkFetches (Fulfilled None) (Rejected networkError)
      (Fulfilled None) (Fulfilled None) in
  let st' := hookOnSample user false net dashAtMount in
  Dash.error st' = None /\
  render st' = ViewDashboard /\
  Dash.appointments st' = [].
Proof.
  vm_compute. repeat split.
Qed.

Lemma isBusinessHours_witness :
  isBusinessHours stringToNumber (lit "08:59") = false /\
  isBusinessHours stringToNumber (lit "09:00") = true /\
  isBusinessHours stringToNumber (lit "17:00") = true /\
  isBusinessHours stringToNumber (lit "17:01") = false /\
  isBusinessHours stringToNumber [] = false /\
  forall h m, h < 24 -> m < 60 ->
    (isBusinessHours stringToNumber (hhmm h m) = true <->
     9 * 60 <= 60 * h + m <= 17 * 60).
Proof.
  apply isBusinessHours_accepts_exactly_nine_to_seventeen.
  exact sample_reads_two_digits.
Defined.

Lemma form_without_date_and_time_witness :
  validateOnSample formWithoutDateAndTime = FieldErrors.mk [] [] [] [] /\
  isFormValid stringToNumber now startOfLocalDay newDate
    formWithoutDateAndTime = true /\
  submitDisabled stringToNumber now startOfLocalDay newDate pageWithForm =
    Page.submitting pageWithForm /\
  snd (handleSubmit stringToNumber now startOfLocalDay newDate pageWithForm) =
    Some formWithoutDateAndTime /\
  (forall payload,
     snd (handleSubmit stringToNumber now startOfLocalDay newDate pageWithForm) =
       Some payload ->
     FormData.appointmentDate payload = [] /\
     FormData.appointmentTime payload = []).
Proof.
  apply (form_without_date_and_time_validates_and_submits
           stringToNumber now startOfLocalDay newDate pageWithForm).
  - discriminate.
  - vm_compute. repeat constructor.
  - reflexivity.
  - reflexivity.
Defined.

(** ** The further properties on the sample host *)

Import MoreSampleData.

Lemma patient_fields_shadow_user_fields_witness :
  ownerOnSample ownedThroughPatient = ownerOnSample ownedThroughPatientToo.
Proof.
  apply patient_fields_shadow_user_fields; reflexivity.
Defined.

Lemma filter_depends_on_own_records_only_witness :
  filterOnSample fourRecords (JStr (lit "p1")) =
  filterOnSample
    [record "1" "p1" "confirmed"; record "3" "p1" "cancelled";
     record "4" "p1" "pending"] (JStr (lit "p1")).
Proof.
  apply filter_depends_on_own_records_only. reflexivity.
Defined.

Lemma non_string_patientId_witness :
  filterOnSample fourRecords (JNum 42) = mkFilterResult [] 0.
Proof.
  apply non_string_patientId_matches_nothing. discriminate.
Defined.

Lemma results_of_different_patients_witness :
  ~ In (record "1" "p1" "confirmed")
       (patientAppointments (filterOnSample fourRecords (JStr (lit "p2")))).
Proof.
  apply (results_of_different_patients_are_disjoint
           numberToString now startOfLocalDay newDate fourRecords
           (p := lit "p1") (q := lit "p2")).
  - discriminate.
  - vm_compute. left. reflexivity.
Defined.

Lemma unresolved_user_witness :
  hookOnSample JNull false
    (mkFetches (Fulfilled None) (Fulfilled (Some fourRecords))
       (Fulfilled None) (Fulfilled None)) dashAtMount =
  Dash.mk None [] [] [] false None.
Proof.
  apply (unresolved_user_loads_nothing
           numberToString now startOfLocalDay newDate JNull false
           (mkFetches (Fulfilled None) (Fulfilled (Some fourRecords))
              (Fulfilled None) (Fulfilled None)) dashAtMount).
  reflexivity.
Defined.

Lemma hook_and_helper_agree_witness :
  hookCurrentPatientId numberToString userWithEqualIds =
  getCurrentPatientId numberToString userWithEqualIds.
Proof.
  apply (hook_and_helper_agree_on_consistent_ids numberToString
           userWithEqualIds).
  - reflexivity.
  - reflexivity.
Defined.


Lemma isDateInFuture_witness :
  isDateInFuture now startOfLocalDay newDate (lit "2025-02-10") = true <->
  lit "2025-02-10" <> [] /\
  exists t,
    newDate (JStr (lit "2025-02-10")) = Some t /\ (startOfLocalDay now <= t)%Z.
Proof.
  apply isDateInFuture_accepts_today_and_later. exact sample_calendar.
Defined.

Lemma accepted_dates_witness :
  countsOnSample (record "1" "p1" "confirmed") =
  isDateInFuture now startOfLocalDay newDate (lit "2025-02-10").
Proof.
  apply accepted_dates_are_the_upcoming_dates.
  - exact sample_calendar.
  - discriminate.
  - reflexivity.
  - reflexivity.
Defined.

Lemma isBusinessHours_seconds_witness :
  isBusinessHours stringToNumber (hhmm 17 0 ++ colon :: lit "59") =
    isBusinessHours stringToNumber (hhmm 17 0) /\
  isBusinessHours stringToNumber [digit (17 / 10); digit (17 mod 10)] =
    isBusinessHours stringToNumber (hhmm 17 0).
Proof.
  apply isBusinessHours_reads_hours_and_minutes_only.
  - exact sample_reads_two_digits.
  - lia.
  - lia.
Defined.

Lemma reason_padding_witness :
  fieldErrorOnSample (lit "reason") (lit "  " ++ lit "short" ++ lit "   ") =
    fieldErrorOnSample (lit "reason") (lit "short") /\
  fieldErrorOnSample (lit "reason") (lit "  " ++ lit "   ") <> [].
Proof.
  apply reason_is_judged_without_surrounding_whitespace; reflexivity.
Defined.

Lemma successful_submission_witness :
  let v' := createSettled Created 7 viewWithFilledForm in
  Page.formData (Booking.page v') = initialFormData /\
  Page.errors (Booking.page v') = initialErrors /\
  isFormValid stringToNumber now startOfLocalDay newDate
    (Page.formData (Booking.page v')) = false /\
  Booking.showForm v' = false /\
  Booking.successMessage v' = SUCCESS_MESSAGE /\
  Page.submitting (Booking.page v') = false /\
  Booking.timeoutRef v' = Some 7 /\
  Booking.pendingTimeouts v' = [7].
Proof.
  apply successful_submission_resets_the_view. left. reflexivity.
Defined.

Lemma hide_timer_witness :
  let booked := createSettled Created 7 viewWithFilledForm in
  let hidden := timeoutFires 7 booked in
  Booking.successMessage booked = SUCCESS_MESSAGE /\
  Booking.successMessage hidden = [] /\
  Booking.pendingTimeouts hidden = [] /\
  Booking.page hidden = Booking.page booked /\
  Booking.showForm hidden = Booking.showForm booked.
Proof.
  apply hide_timer_clears_the_success_message. left. reflexivity.
Defined.

Lemma accepted_submission_witness :
  let inFlight :=
    bookingStep stringToNumber now startOfLocalDay newDate
      viewWithFilledForm EvSubmit in
  Page.submitting (Booking.page inFlight) = true /\
  submitDisabled stringToNumber now startOfLocalDay newDate
    (Booking.page inFlight) = true /\
  Page.submitting (Booking.page (createSettled Created 7 inFlight)) = false.
Proof.
  apply (accepted_submission_disables_the_button_until_settled
           stringToNumber now startOfLocalDay newDate Created 7
           viewWithFilledForm).
  vm_compute. reflexivity.
Defined.
